(** * pscale shell: the interactive secure shell bridge

    A shallow embedding of [internal/cmd/shell/shell.go]: the [RunE] body of
    [ShellCmd], [historyFilePath], [formatMySQLBranch], [createLoginFile],
    [mysql.Run], [checkLibs] and [isLinked].

    The command talks to the outside world (remote API, file system, tunnel,
    subprocess).  Every such call is answered by a field of the record
    [World]; what the command does to the world is kept in [State]: the file
    system, the printed lines and the trace of external calls. *)

From Stdlib Require Import ZArith Lia Ascii String.
From stdpp Require Import base strings pretty gmap list.

Local Open Scope Z_scope.

(** ** Strings *)

Module Str.

  (** The line feed written by [fmt.Fprintln] and by [\n] in a format. *)
Definition LF : string := String "010"%char "".

  (** [strings.HasPrefix s p]. *)
Fixpoint HasPrefix (s p : string) : bool :=
    match p, s with
    | EmptyString, _ => true
    | String _ _, EmptyString => false
    | String a p', String b s' => if Ascii.eqb a b then HasPrefix s' p' else false
    end.

  (** [strings.Contains s substr]. *)
Fixpoint Contains (s substr : string) : bool :=
    if HasPrefix s substr then true
    else match s with
         | EmptyString => false
         | String _ s' => Contains s' substr
         end.

  (** [strings.ContainsRune s c] for a one-byte rune. *)
Fixpoint ContainsByte (s : string) (c : ascii) : bool :=
    match s with
    | EmptyString => false
    | String a s' => if Ascii.eqb a c then true else ContainsByte s' c
    end.

  (** [strings.Split s sep] for a one-byte separator: always at least one
      piece. *)
Fixpoint Split (s : string) (sep : ascii) : list string :=
    match s with
    | EmptyString => [EmptyString]
    | String a s' =>
        if Ascii.eqb a sep then EmptyString :: Split s' sep
        else match Split s' sep with
             | [] => [String a EmptyString]
             | x :: xs => String a x :: xs
             end
    end.

  (** [strings.Join elems sep]. *)
Fixpoint Join (elems : list string) (sep : string) : string :=
    match elems with
    | [] => EmptyString
    | [x] => x
    | x :: xs => x +:+ sep +:+ Join xs sep
    end.

  (** The first [n] bytes of [s]: what a short write leaves in a file. *)
Fixpoint take (n : nat) (s : string) : string :=
    match n, s with
    | O, _ => EmptyString
    | S _, EmptyString => EmptyString
    | S n', String a s' => String a (take n' s')
    end.

End Str.

(** ** path/filepath (Unix) *)

Module filepath.

Definition Separator : ascii := "/"%char.

  (** One path element met by [Clean]; [stack] holds the kept elements, last
      one first. *)
Definition clean_step (rooted : bool) (stack : list string) (c : string)
    : list string :=
    if decide (c = "" ∨ c = ".") then stack
    else if decide (c = "..") then
      match stack with
      | top :: rest =>
          if decide (top = "..") then c :: stack else rest
      | [] => if rooted then [] else [c]
      end
    else c :: stack.

  (** [filepath.Clean]: collapses repeated separators, drops [.] elements,
      resolves inner [..] elements, drops [..] at the root; the empty result
      is [.]. *)
Definition Clean (path : string) : string :=
    let rooted := Str.HasPrefix path "/" in
    let stack := fold_left (clean_step rooted) (Str.Split path Separator) [] in
    let out := (if rooted then "/" else "") +:+ Str.Join (rev stack) "/" in
    if decide (out = "") then "." else out.

  (** [filepath.Join]: leading empty elements are skipped, the rest is joined
      with the separator and cleaned. *)
Fixpoint Join (elem : list string) : string :=
    match elem with
    | [] => ""
    | e :: rest => if decide (e = "") then Join rest
                   else Clean (Str.Join elem "/")
    end.

End filepath.

(** ** Errors *)

(** [planetscale.ErrorCode]; only [ErrNotFound] is named by the command. *)
Inductive ErrorCode :=
| ErrNotFound
| ErrOtherCode (name : string).

(** Go [error] values met by the command. *)
Inductive error :=
| errorString (msg : string)                (* errors.New, fmt.Errorf, os and net errors *)
| psError (code : ErrorCode) (msg : string) (* *planetscale.Error *)
| ExitError (status : Z).                   (* *exec.ExitError *)

(** [err.Error()]. *)
Definition Error (e : error) : string :=
  match e with
  | errorString msg => msg
  | psError _ msg => msg
  | ExitError status => "exit status " +:+ pretty status
  end.

Inductive result (A : Type) :=
| Ok (a : A)
| Err (e : error).
Arguments Ok {A} a.
Arguments Err {A} e.

(** ** Data of the collaborators *)

Module printer.
Inductive Format := Human | JSON | CSV.
#[global] Instance Format_eq_dec : EqDecision Format.
  Proof. solve_decision. Defined.
End printer.

Module ps.
  (** [status.Credentials]. *)
Record Credentials := { User : string; Password : string }.
End ps.

Module proxy.
  (** [proxy.Options]; the certificate source and the logger are opaque. *)
Record Options := {
    LocalAddr : string;
    RemoteAddr : string;
Instance : string;
    LoggerDebug : bool }.
End proxy.

Module exec.
  (** [exec.Cmd]: [Args] holds the program name first, as in Go. *)
Record Cmd := {
    Path : string;
    Args : list string;
    Env : list string;
    Dir : string }.

Definition CommandContext (name : string) (arg : list string) : Cmd :=
    {| Path := name; Args := name :: arg; Env := []; Dir := "" |}.

Definition with_Dir (c : Cmd) (d : string) : Cmd :=
    {| Path := Path c; Args := Args c; Env := Env c; Dir := d |}.

Definition with_Env (c : Cmd) (e : list string) : Cmd :=
    {| Path := Path c; Args := Args c; Env := e; Dir := Dir c |}.
End exec.

(** ** The world outside the command

    Each field answers one external call.  Cancellation of the shared context
    shows up here as the error answer of the call it interrupts
    ([GetStatus], [proxy_LocalAddr], [Start], [Wait]). *)
Record World := {
  (* terminal and configuration *)
  IsTTY : bool;
  Format : printer.Format;
  Organization : string;
  Debug : bool;
  flag_localAddr : string;
  flag_remoteAddr : string;
  (* helpers of packages cmdutil, printer and promptutil *)
  MySQLClientPath : result string;
  NewClientFromConfig : option error;
  GetBranch : string → string → result string;
  ErrCode : error → option ErrorCode;
  HandleError : error → error;
  Bold : string → string;
  BoldBlue : string → string;
  BoldRed : string → string;
  (* remote API *)
  DatabaseBranches_Get : string → string → string → option error;
  DatabaseBranches_GetStatus : string → string → string → result ps.Credentials;
  (* tunnel *)
  proxy_NewClient : proxy.Options → option error;
  proxy_LocalAddr : result string;
  net_SplitHostPort : string → result (string * string);
  (* file system *)
  os_TempDir : string;
  TempFile_err : option error;
  random_names : list string;
  Write_short : nat → option nat;
  Close_err : option error;
  os_Remove_err : string → option error;
  homedir_Dir : result string;
  os_Stat_IsNotExist : string → bool;
  os_MkdirAll : string → Z → option error;
  (* processes *)
  GOOS : string;
  os_Environ : list string;
  CombinedOutput : string → list string → string * option error;
  Start : exec.Cmd → option error;
  Wait : exec.Cmd → option error }.

(** ** What the command does to the world *)

Inductive Event :=
| EvGetBranch (org db : string)             (* promptutil.GetBranch *)
| EvBranchGet (org db branch : string)      (* client.DatabaseBranches.Get *)
| EvProxyNew (opts : proxy.Options)         (* proxy.NewClient *)
| EvProxyRun                                (* go p.Run(ctx) *)
| EvGetStatus (org db branch : string)      (* client.DatabaseBranches.GetStatus *)
| EvTempFile (name : string)                (* ioutil.TempFile created the file *)
| EvLocalAddr                               (* p.LocalAddr *)
| EvMkdirAll (path : string) (perm : Z)     (* os.MkdirAll *)
| EvCheckLibs                               (* checkLibs *)
| EvExec (name : string) (args : list string) (* CombinedOutput of a tool *)
| EvStart (c : exec.Cmd)                    (* c.Start *)
| EvWait                                    (* c.Wait *)
| EvRemove (name : string).                 (* os.Remove *)

Record File := { Mode : Z; Data : string }.

Record State := {
  fs : gmap string File;
  stdout : list string;
  stderr : list string;
  trace : list Event }.

Definition set_fs (f : gmap string File → gmap string File) (s : State) : State :=
  {| fs := f (fs s); stdout := stdout s; stderr := stderr s; trace := trace s |}.
Definition add_stdout (line : string) (s : State) : State :=
  {| fs := fs s; stdout := stdout s ++ [line]; stderr := stderr s; trace := trace s |}.
Definition add_stderr (line : string) (s : State) : State :=
  {| fs := fs s; stdout := stdout s; stderr := stderr s ++ [line]; trace := trace s |}.
Definition add_event (e : Event) (s : State) : State :=
  {| fs := fs s; stdout := stdout s; stderr := stderr s; trace := trace s ++ [e] |}.

(** ** The monad of a Go function body

    [Val a]: the body goes on with [a]; [Return e]: the function returns the
    error [e]; [Exit c]: the process is gone ([os.Exit], no deferred call
    runs); [Panic]: a run-time panic. *)
Inductive Res (A : Type) :=
| Val (a : A)
| Return (e : error)
| Exit (code : Z)
| Panic (msg : string).
Arguments Val {A} a.
Arguments Return {A} e.
Arguments Exit {A} code.
Arguments Panic {A} msg.

Definition M (A : Type) : Type := State → Res A * State.

Definition ret {A} (a : A) : M A := λ s, (Val a, s).

Definition bind {A B} (m : M A) (k : A → M B) : M B := λ s,
  match m s with
  | (Val a, s') => k a s'
  | (Return e, s') => (Return e, s')
  | (Exit c, s') => (Exit c, s')
  | (Panic msg, s') => (Panic msg, s')
  end.

#[global] Instance M_ret : MRet M := @ret.
#[global] Instance M_bind : MBind M := λ A B k m, bind m k.

(** [return err]. *)
Definition return_err {A} (e : error) : M A := λ s, (Return e, s).

(** [x, err := f(); if err != nil { return err }]. *)
Definition try {A} (r : result A) : M A :=
  match r with
  | Ok a => ret a
  | Err e => return_err e
  end.

(** [if err != nil { return err }]. *)
Definition check (err : option error) : M unit :=
  match err with
  | None => ret tt
  | Some e => return_err e
  end.

(** [x, err := f()] where the caller looks at both: the callee's [Return]
    becomes the pair of the zero value and the error. *)
Definition catch {A} (zero : A) (m : M A) : M (A * option error) := λ s,
  match m s with
  | (Val a, s') => (Val (a, None), s')
  | (Return e, s') => (Val (zero, Some e), s')
  | (Exit c, s') => (Exit c, s')
  | (Panic msg, s') => (Panic msg, s')
  end.

(** [defer cleanup] followed by [body]: the cleanup runs when the function
    returns or panics, not when the process exits. *)
Definition defer {A} (cleanup : M unit) (body : M A) : M A := λ s,
  match body s with
  | (Exit c, s') => (Exit c, s')
  | (r, s') => (r, (cleanup s').2)
  end.

Definition emit (e : Event) : M unit := λ s, (Val tt, add_event e s).
Definition modify_fs (f : gmap string File → gmap string File) : M unit :=
  λ s, (Val tt, set_fs f s).
Definition Println (line : string) : M unit := λ s, (Val tt, add_stdout (line +:+ Str.LF) s).
Definition Printf (text : string) : M unit := λ s, (Val tt, add_stdout text s).

(** [log.Fatal err]: the message goes to standard error and the process
    exits with status 1. *)
Definition log_Fatal {A} (e : error) : M A := λ s,
  (Exit 1, add_stderr (Error e +:+ Str.LF) s).

(** [args[i]]: indexing past the end panics. *)
Definition index (l : list string) (i : nat) : M string := λ s,
  match l !! i with
  | Some x => (Val x, s)
  | None => (Panic "index out of range", s)
  end.

(** ** ioutil.TempFile and the file handle *)

(** File mode [0600]: read and write for the owner only. *)
Definition mode_0600 : Z := 0x180.
(** Directory mode [0771] of the history directory. *)
Definition mode_0771 : Z := 0x1f9.
(** The group and world bits [0077] of a mode. *)
Definition mode_0077 : Z := 0x3f.

(** [prefixAndSuffix]: the pattern is split at its last [*]. *)
Fixpoint prefixAndSuffix (pattern : string) : string * string :=
  match pattern with
  | EmptyString => ("", "")
  | String a rest =>
      if Ascii.eqb a "*" && negb (Str.ContainsByte rest "*") then ("", rest)
      else let '(pre, suf) := prefixAndSuffix rest in (String a pre, suf)
  end.

(** The first candidate name that is not taken: [O_EXCL] makes [TempFile]
    try the next random name when a file of that name exists. *)
Fixpoint first_free (files : gmap string File) (names : list string) : option string :=
  match names with
  | [] => None
  | n :: rest => match files !! n with
                 | Some _ => first_free files rest
                 | None => Some n
                 end
  end.

Section Shell.
Context (w : World).

  (** [ioutil.TempFile dir pattern]: a new file of mode 0600, empty, under
      the temporary directory when [dir] is empty.  The handle is the name. *)
Definition ioutil_TempFile (dir pattern : string) : M (result string) := λ s,
    match TempFile_err w with
    | Some e => (Val (Err e), s)
    | None =>
        let dir := if decide (dir = "") then os_TempDir w else dir in
        let '(pre, suf) := prefixAndSuffix pattern in
        let names := (λ r, filepath.Join [dir; pre +:+ r +:+ suf]) <$> random_names w in
        match first_free (fs s) names with
        | None => (Val (Err (errorString "file exists")), s)
        | Some name =>
            (Val (Ok name),
             add_event (EvTempFile name)
               (set_fs <[name := {| Mode := mode_0600; Data := "" |}]> s))
        end
    end.

  (** The [k]-th write of the session to the handle [name]: the world may
      cut it short after some bytes, which is an error. *)
Definition file_Write (name : string) (k : nat) (data : string) : M (option error) := λ s,
    match Write_short w k with
    | None =>
        (Val None,
         set_fs (alter (λ f, {| Mode := Mode f; Data := Data f +:+ data |}) name) s)
    | Some n =>
        (Val (Some (errorString "short write")),
         set_fs (alter (λ f, {| Mode := Mode f; Data := Data f +:+ Str.take n data |}) name) s)
    end.

Definition file_Close (name : string) : M (option error) := mret (Close_err w).

  (** [os.Remove name]; the deferred call drops its error. *)
Definition os_Remove (name : string) : M unit :=
    emit (EvRemove name);;
    match os_Remove_err w name with
    | Some _ => mret tt
    | None => modify_fs (delete name)
    end.

  (** ** historyFilePath *)
Definition historyFilePath (org db branch : string) : M string :=
    dir ← try (homedir_Dir w);
    let historyDir := filepath.Join [dir; ".pscale"; "history"] in
    (if os_Stat_IsNotExist w historyDir then
       emit (EvMkdirAll historyDir mode_0771);;
       check (os_MkdirAll w historyDir mode_0771)
     else mret tt);;
    let historyFilename := org +:+ "." +:+ db +:+ "." +:+ branch in
    let historyFile := filepath.Join [historyDir; historyFilename] in
    mret historyFile.

  (** ** formatMySQLBranch *)
Definition formatMySQLBranch (database branch : string) : string :=
    let branchStyled :=
      if decide (branch = "main") then BoldRed w branch else BoldBlue w branch in
    Bold w database +:+ "/" +:+ branchStyled +:+ "> ".

  (** ** createLoginFile *)
Definition createLoginFile (username password : string) : M string :=
    r ← ioutil_TempFile "" "pscale-*";
    match r with
    | Err err =>
        Println ("could not create temporary file:  " +:+ Error err);;
        return_err err
    | Ok tmpFile =>
        _ ← file_Write tmpFile 0 ("[client]" +:+ Str.LF);
        _ ← file_Write tmpFile 1 ("user=" +:+ username +:+ Str.LF);
        _ ← file_Write tmpFile 2 ("password=" +:+ password +:+ Str.LF);
        _ ← file_Close tmpFile;
        mret tmpFile
    end.

  (** ** isLinked and checkLibs *)
Definition isLinked (libs : string) : bool :=
    if Str.Contains libs "libreadline" || Str.Contains libs "libedit"
    then true else false.

  (** [exec.CommandContext(ctx, name, args...).CombinedOutput()]: a command
      with an empty name cannot be started. *)
Definition exec_CombinedOutput (name : string) (args : list string)
    : M (string * option error) :=
    emit (EvExec name args);;
    mret (if decide (name = "") then ("", Some (errorString "exec: no command"))
          else CombinedOutput w name args).

Definition checkLibs (mysqlPath : string) : M bool :=
    emit EvCheckLibs;;
    let tool (name : string) (args : list string) : M bool :=
      let args := args ++ [mysqlPath] in
      '(out, err) ← exec_CombinedOutput name args;
      match err with
      | Some err =>
          return_err (errorString ("failed to check linking: " +:+ Error err
                                   +:+ Str.LF +:+ "output: " +:+ out))
      | None => mret (isLinked out)
      end in
    if decide (GOOS w = "darwin") then tool "otool" ["-L"]
    else if decide (GOOS w = "linux") then mret false
    else if decide (GOOS w = "unix") then mret false
    else tool "" [].

  (** ** mysql.Run *)
Record mysql := {
    mysqlPath : string;
    dir : string;
    styledBranch : string;
    historyFile : string;
    debug : bool }.

Definition Run (m : mysql) (args : list string) : M unit :=
    let c := exec.CommandContext (mysqlPath m) args in
    let c := if decide (dir m ≠ "") then exec.with_Dir c (dir m) else c in
    let c := exec.with_Env c (os_Environ w ++ ["MYSQL_HISTFILE=" +:+ historyFile m]) in
    '(linked, err) ← catch false (checkLibs (mysqlPath m));
    (if debug m then
       match err with
       | Some err => Printf ("failed to check linking: " +:+ Error err)
       | None =>
           if (linked : bool) then Println "mysql is linked against readline/editline"
           else Println "mysql is not linked against readline/editline"
       end
     else mret tt);;
    let c := if (linked : bool)
             then exec.with_Env c (exec.Env c ++ ["MYSQL_PS1=" +:+ styledBranch m])
             else c in
    emit (EvStart c);;
    match Start w c with
    | Some err => log_Fatal err
    | None =>
        emit EvWait;;
        check (Wait w c)
    end.

  (** ** ShellCmd: the body of RunE *)
Definition localProxyAddr : string := "127.0.0.1".

Definition mysqlArgs (tmpFile host port : string) : list string :=
    ["--defaults-extra-file=" +:+ tmpFile; "-s"; "-t"; "-h"; host; "-P"; port].

Definition RunE (args : list string) : M unit :=
    database ← index args 0;
    if negb (IsTTY w) || negb (bool_decide (Format w = printer.Human)) then
      return_err (errorString "pscale shell only works in interactive mode")
    else
    mysqlPath ← try (MySQLClientPath w);
    check (NewClientFromConfig w);;
    branch ← (if decide (length args = 2%nat) then index args 1 else mret "");
    branch ← (if decide (branch = "")
              then emit (EvGetBranch (Organization w) database);;
                   try (GetBranch w (Organization w) database)
              else mret branch);
    (* check whether database and branch exist *)
    emit (EvBranchGet (Organization w) database branch);;
    match DatabaseBranches_Get w (Organization w) database branch with
    | Some err =>
        match ErrCode w err with
        | Some ErrNotFound =>
            return_err (errorString
              ("database " +:+ BoldBlue w database +:+ " and branch "
               +:+ BoldBlue w branch +:+ " does not exist in organization "
               +:+ BoldBlue w (Organization w)))
        | _ => return_err (HandleError w err)
        end
    | None => mret tt
    end;;
    let localAddr := if decide (flag_localAddr w ≠ "") then flag_localAddr w
                     else localProxyAddr +:+ ":0" in
    let proxyOpts := {|
      proxy.LocalAddr := localAddr;
      proxy.RemoteAddr := flag_remoteAddr w;
      proxy.Instance := Organization w +:+ "/" +:+ database +:+ "/" +:+ branch;
      proxy.LoggerDebug := Debug w |} in
    emit (EvProxyNew proxyOpts);;
    match proxy_NewClient w proxyOpts with
    | Some err =>
        return_err (errorString ("couldn't create proxy client: " +:+ Error err))
    | None => mret tt
    end;;
    (* go func() { p.Run(ctx) }(): the task runs beside the session; only
       its start is part of the session, not what it prints later *)
    emit EvProxyRun;;
    emit (EvGetStatus (Organization w) database branch);;
    status ← match DatabaseBranches_GetStatus w (Organization w) database branch with
             | Err err =>
                 match ErrCode w err with
                 | Some ErrNotFound =>
                     return_err (errorString
                       ("branch " +:+ BoldBlue w branch +:+ " does not exist in database "
                        +:+ BoldBlue w database +:+ " (organization: "
                        +:+ BoldBlue w (Organization w) +:+ ")"))
                 | _ => return_err (HandleError w err)
                 end
             | Ok status => mret status
             end;
    if decide (ps.User status = "") then
      return_err (errorString "database branch is not ready yet")
    else
    '(tmpFile, err) ← catch "" (createLoginFile (ps.User status) (ps.Password status));
    (if decide (tmpFile ≠ "") then defer (os_Remove tmpFile) else id)
      (check err;;
       emit EvLocalAddr;;
       addr ← try (proxy_LocalAddr w);
       '(host, port) ← try (net_SplitHostPort w addr);
       let mysqlArgs := mysqlArgs tmpFile host port in
       historyFile ← historyFilePath (Organization w) database branch;
       let styledBranch := formatMySQLBranch database branch in
       let m := {|
         mysqlPath := mysqlPath;
         dir := "";
         historyFile := historyFile;
         styledBranch := styledBranch;
         debug := Debug w |} in
       Run m mysqlArgs).

End Shell.

(** ** Sessions *)

(** A session starts on some file system, with nothing printed and no
    external call made yet. *)
Definition initial (files : gmap string File) : State :=
  {| fs := files; stdout := []; stderr := []; trace := [] |}.

Definition session (w : World) (args : list string) (files : gmap string File)
  : Res unit * State :=
  RunE w args (initial files).

(** What the Capability Detector reports for a client binary: the value
    [mysql.Run] keeps in [linked] ([false] when [checkLibs] fails). *)
Definition supportsPrompt (w : World) (mysqlPath : string) : bool :=
  match checkLibs w mysqlPath (initial ∅) with
  | (Val linked, _) => linked
  | _ => false
  end.

(** The error, if any, that [checkLibs] hands back to [mysql.Run]. *)
Definition checkLibs_err (w : World) (mysqlPath : string) : option error :=
  match checkLibs w mysqlPath (initial ∅) with
  | (Return e, _) => Some e
  | _ => None
  end.

(** The order in which the command, as written, makes its external calls. *)
Definition rank (e : Event) : nat :=
  match e with
  | EvGetBranch _ _ => 0       (* Target Resolver *)
  | EvBranchGet _ _ _ => 1     (* Branch Validator *)
  | EvProxyNew _ => 2          (* Tunnel: client *)
  | EvProxyRun => 3            (* Tunnel: start *)
  | EvGetStatus _ _ _ => 4     (* Credential Broker *)
  | EvTempFile _ => 5          (* Credential File Manager *)
  | EvLocalAddr => 6
  | EvMkdirAll _ _ => 7
  | EvCheckLibs => 8           (* Capability Detector *)
  | EvExec _ _ => 9
  | EvStart _ => 10            (* Session Launcher *)
  | EvWait => 11
  | EvRemove _ => 12
  end.

(** The component order in the words of the specification: Resolver,
    Validator, Broker, then credential file and tunnel start, then
    Capability Detector, then Launcher.  Calls the sentence does not speak
    of have no stage. *)
Definition spec_stage (e : Event) : option nat :=
  match e with
  | EvGetBranch _ _ => Some 0
  | EvBranchGet _ _ _ => Some 1
  | EvGetStatus _ _ _ => Some 2
  | EvTempFile _ => Some 3
  | EvProxyRun => Some 3
  | EvCheckLibs => Some 4
  | EvStart _ => Some 5
  | _ => None
  end%nat.

Fixpoint increasing (l : list nat) : bool :=
  match l with
  | a :: (b :: _) as rest => (a <? b)%nat && increasing rest
  | _ => true
  end.

Fixpoint nondecreasing (l : list nat) : bool :=
  match l with
  | a :: (b :: _) as rest => (a <=? b)%nat && nondecreasing rest
  | _ => true
  end.

(** The command started by the session, and the credential file it made. *)
Definition started (tr : list Event) : list exec.Cmd :=
  omap (λ e, match e with EvStart c => Some c | _ => None end) tr.
Definition created (tr : list Event) : list string :=
  omap (λ e, match e with EvTempFile n => Some n | _ => None end) tr.

(** The credential file made by [createLoginFile] for a user and a
    password, when every write is complete. *)
Definition loginFile (username password : string) : File :=
  {| Mode := mode_0600;
     Data := "[client]" +:+ Str.LF +:+ "user=" +:+ username +:+ Str.LF
             +:+ "password=" +:+ password +:+ Str.LF |}.

(** What the [k]-th write leaves of [data]. *)
Definition written (w : World) (k : nat) (data : string) : string :=
  match Write_short w k with
  | None => data
  | Some n => Str.take n data
  end.

(** ** A concrete deployment, used to run the command *)

Module Scenario.

Definition ESC : string := String "027"%char "".

  (** An ANSI colour wrapper, as package printer applies on a terminal. *)
Definition ansi (code s : string) : string :=
    ESC +:+ "[" +:+ code +:+ "m" +:+ s +:+ ESC +:+ "[0m".

  (** Organization acme, credentials shop_ro/secret, tunnel bound to
      127.0.0.1:54321, home /home/op.  The platform, the answer of the
      branch lookup, of [Start] and [Wait], and the short writes vary. *)
Definition world_with_tool (goos : string) (lookup start wait : option error)
    (short : nat → option nat) (dbg : bool) (tool : string * option error)
    : World := {|
    IsTTY := true; Format := printer.Human; Organization := "acme"; Debug := dbg;
    flag_localAddr := ""; flag_remoteAddr := "";
    MySQLClientPath := Ok "/usr/bin/mysql"; NewClientFromConfig := None;
    GetBranch := λ _ _, Ok "main";
    ErrCode := λ e, match e with psError c _ => Some c | _ => None end;
    HandleError := λ e, e;
    Bold := ansi "1"; BoldBlue := ansi "34;1"; BoldRed := ansi "31;1";
    DatabaseBranches_Get := λ _ _ _, lookup;
    DatabaseBranches_GetStatus := λ _ _ _,
      Ok {| ps.User := "shop_ro"; ps.Password := "secret" |};
    proxy_NewClient := λ _, None;
    proxy_LocalAddr := Ok "127.0.0.1:54321";
    net_SplitHostPort := λ a,
      if decide (a = "127.0.0.1:54321") then Ok ("127.0.0.1", "54321")
      else Err (errorString "missing port in address");
    os_TempDir := "/tmp"; TempFile_err := None;
    random_names := ["123456789"; "987654321"];
    Write_short := short; Close_err := None; os_Remove_err := λ _, None;
    homedir_Dir := Ok "/home/op"; os_Stat_IsNotExist := λ _, true;
    os_MkdirAll := λ _ _, None;
    GOOS := goos; os_Environ := ["PATH=/usr/bin"];
    CombinedOutput := λ _ _, tool;
    Start := λ _, start; Wait := λ _, wait |}.

  (** The same host with [otool] answering that the client is linked
      against libedit. *)
Definition world (goos : string) (lookup start wait : option error)
    (short : nat → option nat) (dbg : bool) : World :=
    world_with_tool goos lookup start wait short dbg
      ("/usr/lib/libedit.3.dylib", None).

Definition complete : nat → option nat := λ _, None.

  (** A clean session on a Mac. *)
Definition clean : World := world "darwin" None None None complete true.

  (** The client cannot be started (or the context is cancelled between the
      creation of the credential file and [Start]). *)
Definition spawn_failure : World :=
    world "linux" None (Some (errorString "fork/exec /usr/bin/mysql: permission denied"))
      None complete false.

  (** The client exits with status 3. *)
Definition client_exit : World :=
    world "linux" None None (Some (ExitError 3)) complete false.

  (** The branch does not exist. *)
Definition not_found : World :=
    world "linux" (Some (psError ErrNotFound "Not Found")) None None complete false.

  (** A Mac on which [otool] is missing. *)
Definition no_otool : World :=
    world_with_tool "darwin" None None None (λ _, None) true
      ("otool: not found", Some (errorString "exit status 127")).

  (** A Windows host. *)
Definition windows : World := world "windows" None None None complete true.

  (** The disk is full: the first write stops after two bytes, the others
      write nothing. *)
Definition disk_full : World :=
    world "linux" None None None
      (λ k, match k with O => Some 2%nat | _ => Some 0%nat end) false.

  (** Faults injected into a host: each argument, when given, replaces the
      answer of one external call. *)
Definition with_faults (w : World)
    (tty : option bool)
    (tempfile : option error)
    (status : option (result ps.Credentials))
    (tunnel : option error)
    (addr : option (result string))
    (home : option (result string))
    (mkdir : option error)
    (remove : option error) : World := {|
    IsTTY := default (IsTTY w) tty;
    Format := Format w; Organization := Organization w; Debug := Debug w;
    flag_localAddr := flag_localAddr w; flag_remoteAddr := flag_remoteAddr w;
    MySQLClientPath := MySQLClientPath w;
    NewClientFromConfig := NewClientFromConfig w;
    GetBranch := GetBranch w; ErrCode := ErrCode w; HandleError := HandleError w;
    Bold := Bold w; BoldBlue := BoldBlue w; BoldRed := BoldRed w;
    DatabaseBranches_Get := DatabaseBranches_Get w;
    DatabaseBranches_GetStatus := λ o d b,
      default (DatabaseBranches_GetStatus w o d b) status;
    proxy_NewClient := λ opts, match tunnel with
                               | Some e => Some e
                               | None => proxy_NewClient w opts
                               end;
    proxy_LocalAddr := default (proxy_LocalAddr w) addr;
    net_SplitHostPort := net_SplitHostPort w;
    os_TempDir := os_TempDir w;
    TempFile_err := match tempfile with Some e => Some e | None => TempFile_err w end;
    random_names := random_names w;
    Write_short := Write_short w; Close_err := Close_err w;
    os_Remove_err := λ n, match remove with
                          | Some e => Some e
                          | None => os_Remove_err w n
                          end;
    homedir_Dir := default (homedir_Dir w) home;
    os_Stat_IsNotExist := os_Stat_IsNotExist w;
    os_MkdirAll := λ d m, match mkdir with
                          | Some e => Some e
                          | None => os_MkdirAll w d m
                          end;
    GOOS := GOOS w; os_Environ := os_Environ w;
    CombinedOutput := CombinedOutput w;
    Start := Start w; Wait := Wait w |}.

  (** The temporary directory is not writable. *)
Definition no_tempfile : World :=
    with_faults client_exit None (Some (errorString "open /tmp/pscale-1: permission denied"))
      None None None None None None.

  (** The terminal is not interactive. *)
Definition no_tty : World :=
    with_faults clean (Some false) None None None None None None None.

  (** The branch has no credentials yet. *)
Definition not_ready : World :=
    with_faults clean None None
      (Some (Ok {| ps.User := ""; ps.Password := "" |})) None None None None None.

  (** The branch is deleted between the lookup and the status request. *)
Definition status_not_found : World :=
    with_faults clean None None
      (Some (Err (psError ErrNotFound "Not Found"))) None None None None None.

  (** The API refuses the status request. *)
Definition status_refused : World :=
    with_faults clean None None
      (Some (Err (psError (ErrOtherCode "permission") "Forbidden")))
      None None None None None.

  (** The tunnel client cannot be created. *)
Definition no_tunnel : World :=
    with_faults clean None None None (Some (errorString "bad certificate"))
      None None None None.

  (** The tunnel never reports its address (the context is cancelled). *)
Definition no_address : World :=
    with_faults clean None None None None
      (Some (Err (errorString "context canceled"))) None None None.

  (** The history directory cannot be created. *)
Definition no_history_dir : World :=
    with_faults clean None None None None None None
      (Some (errorString "mkdir /home/op/.pscale: permission denied")) None.

  (** The credential file cannot be removed. *)
Definition no_remove : World :=
    with_faults clean None None None None None None None
      (Some (errorString "remove: operation not permitted")).


End Scenario.

(** ** Reasoning about function bodies *)

(** [wp m Q s]: running the body [m] from the state [s] ends in a result
    and a state that satisfy [Q]. *)
Definition wp {A} (m : M A) (Q : Res A → State → Prop) (s : State) : Prop :=
  Q (m s).1 (m s).2.

(** What a bind, a [catch] and a [defer] do with the result of their first
    part. *)
Definition bind_post {A B} (k : A → M B) (Q : Res B → State → Prop)
  : Res A → State → Prop := λ r s,
  match r with
  | Val a => wp (k a) Q s
  | Return e => Q (Return e) s
  | Exit c => Q (Exit c) s
  | Panic msg => Q (Panic msg) s
  end.

Definition catch_post {A} (zero : A) (Q : Res (A * option error) → State → Prop)
  : Res A → State → Prop := λ r s,
  match r with
  | Val a => Q (Val (a, None)) s
  | Return e => Q (Val (zero, Some e)) s
  | Exit c => Q (Exit c) s
  | Panic msg => Q (Panic msg) s
  end.

Definition defer_post {A} (cleanup : M unit) (Q : Res A → State → Prop)
  : Res A → State → Prop := λ r s,
  match r with
  | Exit c => Q (Exit c) s
  | _ => Q r (cleanup s).2
  end.

(** ** Summaries of the functions *)

(** The optional second argument of the command: [args[1]] when there are
    exactly two arguments, the empty string otherwise. *)
Definition second_arg (args : list string) : string :=
  if decide (length args = 2%nat) then default "" (args !! 1%nat) else "".

(** The names [ioutil.TempFile("", "pscale-*")] tries, in order. *)
Definition temp_names (w : World) : list string :=
  (λ r, filepath.Join [os_TempDir w; "pscale-" +:+ r +:+ ""]) <$> random_names w.

(** The credential file after the three writes of [createLoginFile]. *)
Definition written_file (w : World) (username password : string) : File :=
  {| Mode := mode_0600;
     Data := ((("" +:+ written w 0 ("[client]" +:+ Str.LF))
               +:+ written w 1 ("user=" +:+ username +:+ Str.LF))
               +:+ written w 2 ("password=" +:+ password +:+ Str.LF)) |}.

(** The external calls of [checkLibs]. *)
Definition checkLibs_events (w : World) (mysqlPath : string) : list Event :=
  trace (checkLibs w mysqlPath (initial ∅)).2.

(** The command [mysql.Run] starts. *)
Definition Run_cmd (w : World) (m : mysql) (args : list string) : exec.Cmd :=
  {| exec.Path := mysqlPath m;
     exec.Args := mysqlPath m :: args;
     exec.Env := os_Environ w ++ ["MYSQL_HISTFILE=" +:+ historyFile m] ++
                 (if supportsPrompt w (mysqlPath m)
                  then ["MYSQL_PS1=" +:+ styledBranch m] else []);
     exec.Dir := dir m |}.

(** What [mysql.Run] prints about the linking of the client. *)
Definition Run_report (w : World) (m : mysql) : list string :=
  if debug m then
    match checkLibs_err w (mysqlPath m) with
    | Some e => ["failed to check linking: " +:+ Error e]
    | None =>
        if supportsPrompt w (mysqlPath m)
        then ["mysql is linked against readline/editline" +:+ Str.LF]
        else ["mysql is not linked against readline/editline" +:+ Str.LF]
    end
  else [].

(** How [mysql.Run] ends for the command [c]. *)
Definition Run_result (w : World) (c : exec.Cmd) : Res unit :=
  match Start w c with
  | Some _ => Exit 1
  | None => match Wait w c with
            | Some e => Return e
            | None => Val tt
            end
  end.

(** The state [mysql.Run] leaves. *)
Definition Run_state (w : World) (m : mysql) (args : list string) (s : State) : State :=
  let c := Run_cmd w m args in
  {| fs := fs s;
     stdout := stdout s ++ Run_report w m;
     stderr := stderr s ++ match Start w c with
                           | Some e => [Error e +:+ Str.LF]
                           | None => []
                           end;
     trace := trace s ++ checkLibs_events w (mysqlPath m) ++
              EvStart c :: match Start w c with
                           | Some _ => []
                           | None => [EvWait]
                           end |}.

(** The calls every session makes on its way to the client, numbered in the
    order of the source: a call of this list is made only after all the
    calls before it. *)
Definition milestone (e : Event) : option nat :=
  match e with
  | EvBranchGet _ _ _ => Some 1   (* Branch Validator *)
  | EvProxyNew _ => Some 2        (* Tunnel: client *)
  | EvProxyRun => Some 3          (* Tunnel: start *)
  | EvGetStatus _ _ _ => Some 4   (* Credential Broker *)
  | EvTempFile _ => Some 5        (* Credential File Manager *)
  | EvLocalAddr => Some 6         (* Tunnel: bound address *)
  | EvCheckLibs => Some 7         (* Capability Detector *)
  | EvStart _ => Some 8           (* Session Launcher *)
  | _ => None
  end%nat.

Fixpoint prefixb (l m : list nat) : bool :=
  match l, m with
  | [], _ => true
  | a :: l', b :: m' => (a =? b)%nat && prefixb l' m'
  | _ :: _, [] => false
  end.

(** The requests of the branch lookups made in a session. *)
Definition lookups (tr : list Event) : list (string * string * string) :=
  omap (λ e, match e with EvBranchGet o d b => Some (o, d, b) | _ => None end) tr.

(** The tunnel calls made in a session. *)
Definition tunnel_calls (tr : list Event) : list Event :=
  List.filter (λ e, match e with
                    | EvProxyNew _ | EvProxyRun | EvLocalAddr => true
                    | _ => false
                    end) tr.

(** The files removed in a session. *)
Definition removed (tr : list Event) : list string :=
  omap (λ e, match e with EvRemove n => Some n | _ => None end) tr.

(** The tools run in a session. *)
Definition tools (tr : list Event) : list (string * list string) :=
  omap (λ e, match e with EvExec n a => Some (n, a) | _ => None end) tr.

(** In the words of the specification: the client is pointed at the
    credential file by an environment variable, and the path of the file
    is not among its command-line arguments. *)
Definition path_in_env (c : exec.Cmd) (file : string) : bool :=
  existsb (λ e, Str.Contains e file) (exec.Env c).
Definition path_in_args (c : exec.Cmd) (file : string) : bool :=
  existsb (λ a, Str.Contains a file) (exec.Args c).
Definition pointed_by_env_only (c : exec.Cmd) (file : string) : bool :=
  path_in_env c file && negb (path_in_args c file).

(** The [mysql] value [RunE] builds for a target. *)
Definition session_mysql (w : World) (mysqlPath home db branch : string) : mysql :=
  {| mysqlPath := mysqlPath;
     dir := "";
     styledBranch := formatMySQLBranch w db branch;
     historyFile :=
       filepath.Join [filepath.Join [home; ".pscale"; "history"];
                      Organization w +:+ "." +:+ db +:+ "." +:+ branch];
     debug := Debug w |}.

(** The requests of the status calls, of the branch prompts and of the
    tunnel clients made in a session. *)
Definition statuses (tr : list Event) : list (string * string * string) :=
  omap (λ e, match e with EvGetStatus o d b => Some (o, d, b) | _ => None end) tr.
Definition prompts (tr : list Event) : list (string * string) :=
  omap (λ e, match e with EvGetBranch o d => Some (o, d) | _ => None end) tr.
Definition proxies (tr : list Event) : list proxy.Options :=
  omap (λ e, match e with EvProxyNew opts => Some opts | _ => None end) tr.

(** The directories made in a session, with their modes. *)
Definition made_dirs (tr : list Event) : list (string * Z) :=
  omap (λ e, match e with EvMkdirAll d m => Some (d, m) | _ => None end) tr.



Section WP.
Context {A B : Type}.
Implicit Types (Q : Res A → State → Prop) (s : State).

Lemma wp_bind (m : M A) (k : A → M B) (Q : Res B → State → Prop) s :
    wp m (bind_post k Q) s → wp (m ≫= k) Q s.
  Proof.
    unfold wp, bind_post, mbind, M_bind, bind.
    destruct (m s) as [[a|e|c|msg] s']; simpl; auto.
  Qed.

Lemma wp_ret (a : A) Q s : Q (Val a) s → wp (mret a) Q s.
  Proof. auto. Qed.

Lemma wp_return_err (e : error) Q s : Q (Return e) s → wp (return_err e) Q s.
  Proof. auto. Qed.

Lemma wp_catch (zero : A) (m : M A) (Q : Res (A * option error) → State → Prop) s :
    wp m (catch_post zero Q) s → wp (catch zero m) Q s.
  Proof.
    unfold wp, catch_post, catch. destruct (m s) as [[a|e|c|msg] s']; simpl; auto.
  Qed.

Lemma wp_defer (cleanup : M unit) (body : M A) Q s :
    wp body (defer_post cleanup Q) s → wp (defer cleanup body) Q s.
  Proof.
    unfold wp, defer_post, defer. destruct (body s) as [[a|e|c|msg] s']; simpl; auto.
  Qed.

Lemma wp_log_Fatal (e : error) Q s :
    Q (Exit 1) (add_stderr (Error e +:+ Str.LF) s) → wp (log_Fatal e) Q s.
  Proof. auto. Qed.

Lemma wp_eq (m : M A) Q s r s' : m s = (r, s') → Q r s' → wp m Q s.
  Proof. unfold wp. intros ->. auto. Qed.

Lemma wp_run_eq (m : M A) s r s' : wp m (λ r0 s0, (r0, s0) = (r, s')) s → m s = (r, s').
  Proof. unfold wp. destruct (m s). auto. Qed.

Lemma wp_wand (m : M A) (Q1 Q2 : Res A → State → Prop) s :
    wp m Q1 s → (∀ r s', Q1 r s' → Q2 r s') → wp m Q2 s.
  Proof. unfold wp. auto. Qed.
End WP.

Lemma wp_emit e (Q : Res unit → State → Prop) s :
  Q (Val tt) (add_event e s) → wp (emit e) Q s.
Proof. auto. Qed.

Lemma wp_Println l (Q : Res unit → State → Prop) s :
  Q (Val tt) (add_stdout (l +:+ Str.LF) s) → wp (Println l) Q s.
Proof. auto. Qed.

Lemma wp_Printf l (Q : Res unit → State → Prop) s :
  Q (Val tt) (add_stdout l s) → wp (Printf l) Q s.
Proof. auto. Qed.

Lemma wp_modify_fs f (Q : Res unit → State → Prop) s :
  Q (Val tt) (set_fs f s) → wp (modify_fs f) Q s.
Proof. auto. Qed.

Lemma wp_index l i (Q : Res string → State → Prop) s :
  match l !! i with
  | Some x => Q (Val x) s
  | None => Q (Panic "index out of range") s
  end → wp (index l i) Q s.
Proof. unfold wp, index. destruct (l !! i); auto. Qed.

Lemma wp_try {A} (r : result A) (Q : Res A → State → Prop) s :
  match r with Ok a => Q (Val a) s | Err e => Q (Return e) s end → wp (try r) Q s.
Proof. destruct r; auto. Qed.

Lemma wp_check (o : option error) (Q : Res unit → State → Prop) s :
  match o with None => Q (Val tt) s | Some e => Q (Return e) s end → wp (check o) Q s.
Proof. destruct o; auto. Qed.

(** The optional second argument never panics: it is read only when there
    are two arguments. *)
Lemma wp_second_arg args (Q : Res string → State → Prop) s :
  Q (Val (second_arg args)) s →
  wp (if decide (length args = 2%nat) then index args 1 else mret "") Q s.
Proof.
  unfold second_arg. destruct (decide (length args = 2%nat)) as [Hlen|]; [|auto].
  intros H. apply wp_index.
  destruct args as [|a [|b [|c args]]]; try discriminate. exact H.
Qed.

Lemma wp_TempFile w dir pattern (Q : Res (result string) → State → Prop) s :
  match TempFile_err w with
  | Some e => Q (Val (Err e)) s
  | None =>
      match first_free (fs s)
              ((λ r, filepath.Join [if decide (dir = "") then os_TempDir w else dir;
                                    (prefixAndSuffix pattern).1 +:+ r +:+ (prefixAndSuffix pattern).2])
                 <$> random_names w) with
      | None => Q (Val (Err (errorString "file exists"))) s
      | Some name =>
          Q (Val (Ok name))
            (add_event (EvTempFile name)
               (set_fs <[name := {| Mode := mode_0600; Data := "" |}]> s))
      end
  end → wp (ioutil_TempFile w dir pattern) Q s.
Proof.
  unfold wp, ioutil_TempFile. destruct (TempFile_err w); [auto|].
  destruct (prefixAndSuffix pattern) as [pre suf]; simpl.
  destruct (first_free _ _); auto.
Qed.

Lemma wp_TempFile_pscale w (Q : Res (result string) → State → Prop) s :
  match TempFile_err w with
  | Some e => Q (Val (Err e)) s
  | None =>
      match first_free (fs s) (temp_names w) with
      | None => Q (Val (Err (errorString "file exists"))) s
      | Some name =>
          Q (Val (Ok name))
            (add_event (EvTempFile name)
               (set_fs <[name := {| Mode := mode_0600; Data := "" |}]> s))
      end
  end → wp (ioutil_TempFile w "" "pscale-*") Q s.
Proof. intros H. apply wp_TempFile. exact H. Qed.

Lemma wp_file_Write w name k data (Q : Res (option error) → State → Prop) s :
  Q (Val (match Write_short w k with
          | None => None
          | Some _ => Some (errorString "short write")
          end))
    (set_fs (alter (λ f, {| Mode := Mode f; Data := Data f +:+ written w k data |}) name) s) →
  wp (file_Write w name k data) Q s.
Proof. unfold wp, file_Write, written. destruct (Write_short w k); auto. Qed.

Lemma wp_file_Close w name (Q : Res (option error) → State → Prop) s :
  Q (Val (Close_err w)) s → wp (file_Close w name) Q s.
Proof. auto. Qed.

Ltac st_simpl :=
  cbn [fs stdout stderr trace add_event set_fs add_stdout add_stderr initial
       Run_state fst snd].

Ltac wp_simpl := cbv beta iota zeta delta [bind_post catch_post defer_post].

(** One step through a function body. *)
Ltac wp_step :=
  lazymatch goal with
  | |- wp (mbind _ _) _ _ => apply wp_bind
  | |- wp (mret _) _ _ => apply wp_ret
  | |- wp (return_err _) _ _ => apply wp_return_err
  | |- wp (emit _) _ _ => apply wp_emit
  | |- wp (Println _) _ _ => apply wp_Println
  | |- wp (Printf _) _ _ => apply wp_Printf
  | |- wp (modify_fs _) _ _ => apply wp_modify_fs
  | |- wp (log_Fatal _) _ _ => apply wp_log_Fatal
  | |- wp (if decide (length ?a = 2%nat) then index ?a 1 else mret "") _ _ =>
      apply wp_second_arg
  | |- wp (index _ _) _ _ => apply wp_index
  | |- wp (try _) _ _ => apply wp_try
  | |- wp (check _) _ _ => apply wp_check
  | |- wp (catch _ _) _ _ => apply wp_catch
  | |- wp (defer _ _) _ _ => apply wp_defer
  | |- wp (ioutil_TempFile _ "" "pscale-*") _ _ => apply wp_TempFile_pscale
  | |- wp (ioutil_TempFile _ _ _) _ _ => apply wp_TempFile
  | |- wp (file_Write _ _ _ _) _ _ => apply wp_file_Write
  | |- wp (file_Close _ _) _ _ => apply wp_file_Close
  | |- wp (id ?m) _ _ => change (id m) with m
  | |- wp (os_Remove _ _) _ _ => unfold os_Remove
  | |- wp (historyFilePath _ _ _ _) _ _ => unfold historyFilePath
  | |- wp ((if decide ?P then _ else _) _) _ _ =>
      destruct (decide P); try (exfalso; first [contradiction | congruence])
  | |- wp (if decide ?P then _ else _) _ _ =>
      destruct (decide P); try (exfalso; first [contradiction | congruence])
  | |- wp ((if ?b then _ else _) _) _ _ => destruct b eqn:?
  | |- wp (if ?b then _ else _) _ _ => destruct b eqn:?
  | |- wp (match ?x with _ => _ end) _ _ => destruct x eqn:?
  | |- match ?x with _ => _ end => destruct x eqn:?
  end; wp_simpl.

(** ** os.Remove *)

Lemma os_Remove_eq w n s :
  (os_Remove w n s).2 =
  {| fs := match os_Remove_err w n with
           | Some _ => fs s
           | None => delete n (fs s)
           end;
     stdout := stdout s; stderr := stderr s;
     trace := trace s ++ [EvRemove n] |}.
Proof.
  unfold os_Remove, mbind, M_bind, bind, emit, modify_fs, mret, M_ret, ret.
  simpl. destruct (os_Remove_err w n); reflexivity.
Qed.

(** ** checkLibs *)

Lemma checkLibs_eq w p s :
  checkLibs w p s =
  (match checkLibs_err w p with
   | Some e => Return e
   | None => Val (supportsPrompt w p)
   end,
   {| fs := fs s; stdout := stdout s; stderr := stderr s;
      trace := trace s ++ checkLibs_events w p |}).
Proof.
  apply wp_run_eq.
  unfold checkLibs_err, supportsPrompt, checkLibs_events, checkLibs, exec_CombinedOutput.
  repeat wp_step.
  all: unfold emit, mbind, M_bind, bind, mret, M_ret, ret, return_err; simpl.
  all: repeat match goal with
              | H : decide _ = _ |- _ => rewrite H
              | H : CombinedOutput _ _ _ = _ |- _ => rewrite H
              end; simpl.
  all: destruct s; unfold add_event; simpl; rewrite <- ?app_assoc; reflexivity.
Qed.

(** A failed check counts as "not linked". *)
Lemma checkLibs_err_unsupported w p e :
  checkLibs_err w p = Some e → supportsPrompt w p = false.
Proof.
  unfold checkLibs_err, supportsPrompt. destruct (checkLibs w p (initial ∅)) as [[]]; 
    [discriminate|reflexivity|discriminate|discriminate].
Qed.

(** [checkLibs] runs at most one tool. *)
Lemma checkLibs_events_cases w p :
  checkLibs_events w p = [EvCheckLibs] ∨
  ∃ name args, checkLibs_events w p = [EvCheckLibs; EvExec name args].
Proof.
  unfold checkLibs_events.
  change (wp (checkLibs w p)
            (λ _ s', trace s' = [EvCheckLibs] ∨
                     ∃ name args, trace s' = [EvCheckLibs; EvExec name args])
            (initial ∅)).
  unfold checkLibs, exec_CombinedOutput. repeat wp_step; simpl; eauto.
Qed.

(** ** mysql.Run *)

Ltac Run_leaf :=
  unfold exec.with_Env, exec.with_Dir, exec.CommandContext in *; simpl in *;
  repeat match goal with
         | H : context [(_ ++ _) ++ _] |- _ => rewrite <- app_assoc in H; simpl in H
         end;
  repeat match goal with
         | H : Start _ _ = _ |- _ => rewrite H
         | H : Wait _ _ = _ |- _ => rewrite H
         end;
  unfold add_stderr, add_event, add_stdout; simpl;
  rewrite ?app_nil_r, <- ?app_assoc; simpl.

Lemma Run_eq w m args s :
  Run w m args s = (Run_result w (Run_cmd w m args), Run_state w m args s).
Proof.
  apply wp_run_eq.
  unfold Run. wp_step. wp_step.
  eapply wp_eq; [apply checkLibs_eq|].
  unfold Run_state, Run_cmd, Run_report, Run_result.
  destruct (checkLibs_err w (mysqlPath m)) as [e|] eqn:He;
    [rewrite (checkLibs_err_unsupported _ _ _ He)|]; wp_simpl;
    (destruct (decide (dir m ≠ "")) as [Hd|Hd]; [|apply dec_stable in Hd; rewrite Hd]);
    destruct (debug m); try destruct (supportsPrompt w (mysqlPath m));
    repeat wp_step; Run_leaf; reflexivity.
Qed.

Lemma wp_Run w m args (Q : Res unit → State → Prop) s :
  Q (Run_result w (Run_cmd w m args)) (Run_state w m args s) → wp (Run w m args) Q s.
Proof. apply wp_eq, Run_eq. Qed.

(** ** createLoginFile *)

Lemma Clean_nonempty path : filepath.Clean path ≠ "".
Proof.
  unfold filepath.Clean.
  destruct (decide (_ = "")) as [|Hne]; [discriminate|exact Hne].
Qed.

Lemma first_free_elem files names n :
  first_free files names = Some n → n ∈ names ∧ files !! n = None.
Proof.
  induction names as [|x names IH]; simpl; [discriminate|].
  destruct (files !! x) eqn:Hx.
  - intros H. destruct (IH H). split; [right|]; assumption.
  - intros [= ->]. split; [left|assumption].
Qed.

Lemma temp_names_nonempty w n : n ∈ temp_names w → n ≠ "".
Proof.
  unfold temp_names. intros (r & -> & _)%list_elem_of_fmap.
  cbn [filepath.Join]. destruct (decide (os_TempDir w = "")).
  - destruct (decide (_ = "")); [discriminate|apply Clean_nonempty].
  - apply Clean_nonempty.
Qed.

Lemma wp_createLoginFile w u p (Q : Res string → State → Prop) s :
  (∀ e, TempFile_err w = Some e ∨
        TempFile_err w = None ∧ first_free (fs s) (temp_names w) = None
        ∧ e = errorString "file exists" →
        Q (Return e)
          (add_stdout (("could not create temporary file:  " +:+ Error e) +:+ Str.LF) s)) →
  (∀ name, TempFile_err w = None →
           first_free (fs s) (temp_names w) = Some name →
           name ≠ "" → fs s !! name = None →
           Q (Val name)
             (add_event (EvTempFile name) (set_fs <[name := written_file w u p]> s))) →
  wp (createLoginFile w u p) Q s.
Proof.
  intros Herr Hok. unfold createLoginFile. wp_step. apply wp_TempFile_pscale.
  destruct (TempFile_err w) as [e|] eqn:He.
  { wp_simpl. repeat wp_step. apply Herr. auto. }
  destruct (first_free (fs s) (temp_names w)) as [name|] eqn:Hfree.
  - wp_simpl. repeat wp_step.
    destruct (first_free_elem _ _ _ Hfree) as [Hin Hfresh].
    specialize (Hok _ eq_refl eq_refl (temp_names_nonempty _ _ Hin) Hfresh).
    replace (set_fs _ (set_fs _ (set_fs _ _)))
      with (add_event (EvTempFile name) (set_fs <[name:=written_file w u p]> s));
      [exact Hok|].
    unfold set_fs, add_event; simpl. f_equal.
    rewrite !alter_insert_eq. reflexivity.
  - wp_simpl. repeat wp_step. apply Herr. auto.
Qed.

Ltac wp_call :=
  lazymatch goal with
  | |- wp (createLoginFile _ _ _) _ _ =>
      apply wp_createLoginFile;
      [ let e := fresh "e" in let H := fresh "Hcreate" in intros e H
      | let n := fresh "name" in
        let H1 := fresh "Hopen" in let H2 := fresh "Hfree" in
        let H3 := fresh "Hname" in let H4 := fresh "Hfresh" in
        intros n H1 H2 H3 H4 ]; wp_simpl
  | |- wp (Run ?w ?m ?args) _ _ =>
      apply wp_Run; unfold Run_result, Run_state;
      destruct (Start w (Run_cmd w m args)) eqn:?;
      [|destruct (Wait w (Run_cmd w m args)) eqn:?]; wp_simpl
  end.

Ltac wp_auto := repeat first [wp_call | wp_step].

(** Through the whole body, with the postcondition folded away until the
    ends of the paths. *)
Ltac wp_run :=
  lazymatch goal with
  | |- wp _ ?Q _ =>
      let P := fresh "P" in
      set (P := Q); wp_auto; subst P; cbv beta
  end.

Ltac st_rewrite := rewrite ?os_Remove_eq; st_simpl.

(** Computing the projections of a trace. *)
Ltac tr_simpl :=
  cbn [started created removed statuses lookups prompts proxies tools
       made_dirs tunnel_calls omap list_omap app List.filter].
Ltac tr_simpl_in H :=
  cbn [started created removed statuses lookups prompts proxies tools
       made_dirs tunnel_calls omap list_omap app List.filter] in H.

Ltac destruct_facts :=
  repeat match goal with
         | H : _ ∧ _ |- _ => destruct H
         | H : ∃ _, _ |- _ => destruct H
         | H : False |- _ => destruct H
         end.

Ltac split_cases :=
  repeat match goal with
         | H : _ ∨ _ |- _ => destruct H; destruct_facts
         end; subst.

(** ** The order of the external calls *)

(** C5 (as amended): in every session the command makes its external calls
    in the order Resolver, Validator, tunnel client and tunnel start,
    Credential Broker, credential file, tunnel address, history directory,
    Capability Detector, Launcher, removal of the credential file; no call
    is made twice, and a component is reached only after the ones before
    it.  In particular the tunnel is started before the Credential Broker
    asks for the branch status. *)
Theorem RunE_call_order w args files :
  let tr := trace (session w args files).2 in
  increasing (rank <$> tr) = true ∧
  prefixb (omap milestone tr) (seq 1 8) = true.
Proof.
  change (wp (RunE w args)
            (λ _ s', increasing (rank <$> trace s') = true ∧
                     prefixb (omap milestone (trace s')) (seq 1 8) = true)
            (initial files)).
  unfold RunE. wp_run.
  all: st_rewrite; try (split; reflexivity).
  all: match goal with
       | |- context [checkLibs_events ?w ?p] =>
           destruct (checkLibs_events_cases w p) as [->|(? & ? & ->)]
       end; split; reflexivity.
Qed.

(** C5 (counterexample): in a clean session the tunnel is started before
    the Credential Broker asks for the branch status, so the stages of the
    order of the specification are not met in order. *)
Lemma tunnel_starts_before_broker :
  let tr := trace (session Scenario.clean ["shop"; "main"] ∅).2 in
  tr = [EvBranchGet "acme" "shop" "main";
        EvProxyNew {| proxy.LocalAddr := "127.0.0.1:0"; proxy.RemoteAddr := "";
                      proxy.Instance := "acme/shop/main"; proxy.LoggerDebug := true |};
        EvProxyRun;
        EvGetStatus "acme" "shop" "main";
        EvTempFile "/tmp/pscale-123456789";
        EvLocalAddr;
        EvMkdirAll "/home/op/.pscale/history" mode_0771;
        EvCheckLibs;
        EvExec "otool" ["-L"; "/usr/bin/mysql"];
        EvStart (Run_cmd Scenario.clean
                   {| mysqlPath := "/usr/bin/mysql"; dir := "";
                      styledBranch := formatMySQLBranch Scenario.clean "shop" "main";
                      historyFile := "/home/op/.pscale/history/acme.shop.main";
                      debug := true |}
                   (mysqlArgs "/tmp/pscale-123456789" "127.0.0.1" "54321"));
        EvWait;
        EvRemove "/tmp/pscale-123456789"] ∧
  nondecreasing (omap spec_stage tr) = false.
Proof. vm_compute. split; reflexivity. Qed.

(** ** Strings *)

Lemma append_cons a s t : String a s +:+ t = String a (s +:+ t).
Proof. reflexivity. Qed.

Lemma append_nil_l s : "" +:+ s = s.
Proof. reflexivity. Qed.

Lemma append_nil_r s : s +:+ "" = s.
Proof. induction s as [|a s IH]; [reflexivity|]. rewrite append_cons, IH. reflexivity. Qed.

Lemma append_assoc s t u : (s +:+ t) +:+ u = s +:+ t +:+ u.
Proof.
  induction s as [|a s IH]; [reflexivity|].
  rewrite !append_cons, IH. reflexivity.
Qed.

(** ** createLoginFile *)

(** When [createLoginFile] returns a name, the temporary file was opened
    under that name, which was free, and the state is the one after the
    three writes. *)
Lemma createLoginFile_Val w u p s name :
  (createLoginFile w u p s).1 = Val name →
  TempFile_err w = None ∧
  first_free (fs s) (temp_names w) = Some name ∧
  name ≠ "" ∧ fs s !! name = None ∧
  (createLoginFile w u p s).2 =
    add_event (EvTempFile name) (set_fs <[name := written_file w u p]> s).
Proof.
  change (wp (createLoginFile w u p)
            (λ r s', r = Val name →
               TempFile_err w = None ∧
               first_free (fs s) (temp_names w) = Some name ∧
               name ≠ "" ∧ fs s !! name = None ∧
               s' = add_event (EvTempFile name)
                      (set_fs <[name := written_file w u p]> s)) s).
  apply wp_createLoginFile.
  - intros e _ [=].
  - intros n Hopen Hfree Hn Hfresh [= ->]. auto.
Qed.

(** C3 (as amended): when [createLoginFile] returns a file name, the file
    of that name has mode 0600, no bit of the group or of the others set;
    and when each of its three writes was complete, the file holds exactly
    the stanza [[client]], the user line and the password line. *)
Theorem createLoginFile_contents w u p s name :
  (createLoginFile w u p s).1 = Val name →
  ∃ f, fs (createLoginFile w u p s).2 !! name = Some f ∧
       Mode f = mode_0600 ∧
       Z.land (Mode f) mode_0077 = 0 ∧
       ((∀ k, (k < 3)%nat → Write_short w k = None) → f = loginFile u p).
Proof.
  intros Hname.
  destruct (createLoginFile_Val _ _ _ _ _ Hname) as (_ & _ & _ & _ & ->).
  exists (written_file w u p).
  st_simpl. rewrite lookup_insert_eq.
  split; [reflexivity|]. split; [reflexivity|]. split; [reflexivity|].
  intros Hfull. unfold written_file, loginFile, written.
  rewrite !Hfull by lia. rewrite append_nil_l, !append_assoc. reflexivity.
Qed.

Lemma createLoginFile_contents_witness :
  (createLoginFile Scenario.clean "shop_ro" "secret" (initial ∅)).1
    = Val "/tmp/pscale-123456789" ∧
  ∃ f, fs (createLoginFile Scenario.clean "shop_ro" "secret" (initial ∅)).2
         !! "/tmp/pscale-123456789" = Some f ∧
       Mode f = mode_0600 ∧
       Z.land (Mode f) mode_0077 = 0 ∧
       ((∀ k, (k < 3)%nat → Write_short Scenario.clean k = None) →
        f = loginFile "shop_ro" "secret").
Proof.
  split; [reflexivity|].
  apply (createLoginFile_contents Scenario.clean "shop_ro" "secret" (initial ∅)).
  reflexivity.
Defined.

(** C3 (counterexample): on a full disk the first write stops after two
    bytes and the other two write nothing; [createLoginFile] returns the
    name all the same, and the file of that name holds [[c], not the
    stanza with the credentials. *)
Lemma createLoginFile_short_content :
  let w := Scenario.disk_full in
  let r := createLoginFile w "shop_ro" "secret" (initial ∅) in
  r.1 = Val "/tmp/pscale-123456789" ∧
  fs r.2 !! "/tmp/pscale-123456789"
    = Some {| Mode := mode_0600; Data := "[c" |} ∧
  fs r.2 !! "/tmp/pscale-123456789" ≠ Some (loginFile "shop_ro" "secret").
Proof.
  assert (Hname : (createLoginFile Scenario.disk_full "shop_ro" "secret"
                     (initial ∅)).1 = Val "/tmp/pscale-123456789")
    by reflexivity.
  cbv zeta. split; [exact Hname|].
  destruct (createLoginFile_Val _ _ _ _ _ Hname) as (_ & _ & _ & _ & ->).
  st_simpl. rewrite lookup_insert_eq. split; [reflexivity|discriminate].
Qed.

(** C10: once the temporary file is open, [createLoginFile] returns its
    name and no error whatever the three writes and the close answer; it
    prints nothing, and the file holds what the writes left of the three
    lines, which may be less than the credentials. *)
Theorem createLoginFile_discards_write_errors w u p s name :
  (ioutil_TempFile w "" "pscale-*" s).1 = Val (Ok name) →
  (createLoginFile w u p s).1 = Val name ∧
  stdout (createLoginFile w u p s).2 = stdout s ∧
  stderr (createLoginFile w u p s).2 = stderr s ∧
  fs (createLoginFile w u p s).2 !! name = Some (written_file w u p).
Proof.
  intros Hopen.
  assert (Hw : wp (ioutil_TempFile w "" "pscale-*")
                 (λ r _, r = Val (Ok name) →
                         TempFile_err w = None ∧
                         first_free (fs s) (temp_names w) = Some name) s).
  { apply wp_TempFile_pscale.
    destruct (TempFile_err w); [discriminate|].
    destruct (first_free (fs s) (temp_names w)); [|discriminate].
    intros [= ->]. auto. }
  destruct (Hw Hopen) as [Herr Hfree].
  change (wp (createLoginFile w u p)
            (λ r s', r = Val name ∧ stdout s' = stdout s ∧ stderr s' = stderr s ∧
                     fs s' !! name = Some (written_file w u p)) s).
  apply wp_createLoginFile.
  - intros e [He|(_ & He & _)]; congruence.
  - intros n _ Hn _ _. assert (n = name) as -> by congruence.
    st_simpl. rewrite lookup_insert_eq. auto.
Qed.

Lemma createLoginFile_discards_write_errors_witness :
  (ioutil_TempFile Scenario.disk_full "" "pscale-*" (initial ∅)).1
    = Val (Ok "/tmp/pscale-123456789") ∧
  Write_short Scenario.disk_full 0 = Some 2%nat ∧
  (let r := createLoginFile Scenario.disk_full "shop_ro" "secret" (initial ∅) in
   r.1 = Val "/tmp/pscale-123456789" ∧
   stdout r.2 = [] ∧ stderr r.2 = [] ∧
   fs r.2 !! "/tmp/pscale-123456789"
     = Some (written_file Scenario.disk_full "shop_ro" "secret")) ∧
  written_file Scenario.disk_full "shop_ro" "secret"
    = {| Mode := mode_0600; Data := "[c" |}.
Proof.
  split; [reflexivity|]. split; [reflexivity|]. split; [|reflexivity].
  apply (createLoginFile_discards_write_errors Scenario.disk_full
           "shop_ro" "secret" (initial ∅)).
  reflexivity.
Defined.

(** ** Substrings *)

Lemma HasPrefix_app p t : Str.HasPrefix (p +:+ t) p = true.
Proof.
  induction p as [|a p IH]; [destruct t; reflexivity|].
  rewrite append_cons. simpl. rewrite Ascii.eqb_refl. exact IH.
Qed.

Lemma HasPrefix_inv s p : Str.HasPrefix s p = true → ∃ t, s = p +:+ t.
Proof.
  revert s. induction p as [|a p IH]; intros s H.
  - exists s. reflexivity.
  - destruct s as [|b s]; [discriminate|]. simpl in H.
    destruct (Ascii.eqb a b) eqn:Hab; [|discriminate].
    apply Ascii.eqb_eq in Hab as ->.
    destruct (IH _ H) as [t ->]. exists t. reflexivity.
Qed.

Lemma Contains_prefix s sub : Str.HasPrefix s sub = true → Str.Contains s sub = true.
Proof. intros H. destruct s; cbn [Str.Contains]; rewrite H; reflexivity. Qed.

Lemma Contains_intro pre sub post : Str.Contains (pre +:+ sub +:+ post) sub = true.
Proof.
  induction pre as [|a pre IH].
  - change (Str.Contains (sub +:+ post) sub = true).
    apply Contains_prefix, HasPrefix_app.
  - rewrite append_cons. cbn [Str.Contains]. rewrite IH.
    destruct (Str.HasPrefix _ _); reflexivity.
Qed.

Lemma Contains_inv s sub :
  Str.Contains s sub = true → ∃ pre post, s = pre +:+ sub +:+ post.
Proof.
  induction s as [|a s IH]; intros H.
  - cbn [Str.Contains] in H. destruct (Str.HasPrefix "" sub) eqn:E; [|discriminate].
    apply HasPrefix_inv in E as [t E]. exists "", t. exact E.
  - cbn [Str.Contains] in H.
    destruct (Str.HasPrefix (String a s) sub) eqn:E.
    + apply HasPrefix_inv in E as [t E]. exists "", t. exact E.
    + destruct (IH H) as (pre & post & ->).
      exists (String a pre), post. reflexivity.
Qed.

Lemma Contains_trans a b c :
  Str.Contains a b = true → Str.Contains b c = true → Str.Contains a c = true.
Proof.
  intros (p1 & q1 & ->)%Contains_inv (p2 & q2 & ->)%Contains_inv.
  replace (p1 +:+ (p2 +:+ c +:+ q2) +:+ q1)
    with ((p1 +:+ p2) +:+ c +:+ (q2 +:+ q1))
    by (rewrite !append_assoc; reflexivity).
  apply Contains_intro.
Qed.

Lemma Contains_app_l s t x : Str.Contains s x = true → Str.Contains (s +:+ t) x = true.
Proof.
  intros (p & q & ->)%Contains_inv.
  rewrite !append_assoc. apply Contains_intro.
Qed.

Lemma Contains_app_r s t x : Str.Contains t x = true → Str.Contains (s +:+ t) x = true.
Proof.
  intros (p & q & ->)%Contains_inv.
  rewrite <- append_assoc. apply Contains_intro.
Qed.

(** ** The branch lookup *)

Lemma elem_of_lookups o d b tr :
  EvBranchGet o d b ∈ tr → (o, d, b) ∈ lookups tr.
Proof.
  intros H. unfold lookups. apply list_elem_of_omap.
  exists (EvBranchGet o d b). auto.
Qed.


Lemma Contains_refl s : Str.Contains s s = true.
Proof.
  apply Contains_prefix. rewrite <- (append_nil_r s) at 1. apply HasPrefix_app.
Qed.

Ltac cases_libs :=
  repeat match goal with
         | |- context [checkLibs_events ?w ?p] =>
             destruct (checkLibs_events_cases w p) as [->|(? & ? & ->)]
         end.

(** The message of the command when the branch lookup answers not-found. *)
Lemma RunE_lookup_not_found w args files :
  wp (RunE w args) (λ r s',
    ∀ org db branch err,
      (org, db, branch) ∈ lookups (trace s') →
      DatabaseBranches_Get w org db branch = Some err →
      ErrCode w err = Some ErrNotFound →
      r = Return (errorString
            ("database " +:+ BoldBlue w db +:+ " and branch "
             +:+ BoldBlue w branch +:+ " does not exist in organization "
             +:+ BoldBlue w org)) ∧
      created (trace s') = [] ∧ tunnel_calls (trace s') = [] ∧
      fs s' = files) (initial files).
Proof.
  unfold RunE. wp_run.
  all: st_rewrite; cases_libs.
  all: intros org db branch err Hin Hget Hcode; tr_simpl_in Hin.
  all: try (apply elem_of_nil in Hin; contradiction).
  all: apply list_elem_of_singleton in Hin; injection Hin as -> -> ->.
  all: try congruence.
  all: repeat split; try reflexivity; try congruence.
Qed.

(** C4: when the branch lookup of a run answers with a not-found error, the
    command returns an error whose message names the organization, the
    database and the branch (in the blue style of the printer, which keeps
    the text), and the run creates no credential file and makes no tunnel
    call: the file system is as it was. *)
Theorem lookup_not_found w args files org db branch err :
  EvBranchGet org db branch ∈ trace (session w args files).2 →
  DatabaseBranches_Get w org db branch = Some err →
  ErrCode w err = Some ErrNotFound →
  (∀ text, Str.Contains (BoldBlue w text) text = true) →
  ∃ msg,
    (session w args files).1 = Return (errorString msg) ∧
    msg = "database " +:+ BoldBlue w db +:+ " and branch " +:+ BoldBlue w branch
          +:+ " does not exist in organization " +:+ BoldBlue w org ∧
    Str.Contains msg org = true ∧
    Str.Contains msg db = true ∧
    Str.Contains msg branch = true ∧
    created (trace (session w args files).2) = [] ∧
    tunnel_calls (trace (session w args files).2) = [] ∧
    fs (session w args files).2 = files.
Proof.
  intros Hin%elem_of_lookups Hget Hcode Hkeeps.
  destruct (RunE_lookup_not_found w args files _ _ _ _ Hin Hget Hcode)
    as (Hres & Hcreated & Htunnel & Hfs).
  eexists. split; [exact Hres|]. split; [reflexivity|].
  repeat split; try assumption.
  - do 5 apply Contains_app_r. apply Hkeeps.
  - apply Contains_app_r, Contains_app_l, Hkeeps.
  - do 3 apply Contains_app_r. apply Contains_app_l, Hkeeps.
Qed.

Lemma lookup_not_found_witness :
  let w := Scenario.not_found in
  let r := session w ["shop"; "dev"] ∅ in
  EvBranchGet "acme" "shop" "dev" ∈ trace r.2 ∧
  ∃ msg,
    r.1 = Return (errorString msg) ∧
    msg = "database " +:+ BoldBlue w "shop" +:+ " and branch " +:+ BoldBlue w "dev"
          +:+ " does not exist in organization " +:+ BoldBlue w "acme" ∧
    Str.Contains msg "acme" = true ∧
    Str.Contains msg "shop" = true ∧
    Str.Contains msg "dev" = true ∧
    created (trace r.2) = [] ∧
    tunnel_calls (trace r.2) = [] ∧
    fs r.2 = ∅.
Proof.
  assert (Hin : EvBranchGet "acme" "shop" "dev"
                ∈ trace (session Scenario.not_found ["shop"; "dev"] ∅).2)
    by (vm_compute; left).
  split; [exact Hin|].
  apply (lookup_not_found Scenario.not_found ["shop"; "dev"] ∅
           "acme" "shop" "dev" (psError ErrNotFound "Not Found") Hin);
    [reflexivity | reflexivity |].
  intros text. unfold Scenario.not_found, Scenario.world, BoldBlue, Scenario.ansi.
  do 4 apply Contains_app_r. apply Contains_app_l, Contains_refl.
Defined.

(** ** The command started by a session *)

(** The client is started at most once, for the target of the branch
    lookup, with the credential file of the session and the address of the
    tunnel. *)
Lemma RunE_started w args files :
  wp (RunE w args) (λ r s',
    ∀ c, c ∈ started (trace s') →
      ∃ db branch file addr host port home,
        args !! 0%nat = Some db ∧
        MySQLClientPath w = Ok (exec.Path c) ∧
        lookups (trace s') = [(Organization w, db, branch)] ∧
        created (trace s') = [file] ∧
        proxy_LocalAddr w = Ok addr ∧
        net_SplitHostPort w addr = Ok (host, port) ∧
        homedir_Dir w = Ok home ∧
        started (trace s') = [c] ∧
        c = Run_cmd w (session_mysql w (exec.Path c) home db branch)
              (mysqlArgs file host port)) (initial files).
Proof.
  unfold RunE. wp_run.
  all: st_rewrite; cases_libs.
  all: intros c Hin; tr_simpl_in Hin.
  all: try (apply elem_of_nil in Hin; contradiction).
  all: apply list_elem_of_singleton in Hin; subst c.
  all: do 7 eexists; repeat split; try eassumption; reflexivity.
Qed.

(** C2 (as amended): the client of every session is pointed at the
    credential file by its first command-line argument,
    [--defaults-extra-file=] followed by the path of the file the session
    created, not by an environment variable.  The program is the one
    [MySQLClientPath] found; the other arguments are [-s], [-t], [-h] and
    [-P] with the host and the port of the tunnel's bound address; to the
    inherited environment the launcher adds only the history file and,
    when the client supports it, the prompt, both made from the home
    directory and the target that was looked up. *)
Theorem credential_file_by_argument w args files c :
  c ∈ started (trace (session w args files).2) →
  ∃ file addr host port home db branch,
    args !! 0%nat = Some db ∧
    lookups (trace (session w args files).2) = [(Organization w, db, branch)] ∧
    created (trace (session w args files).2) = [file] ∧
    MySQLClientPath w = Ok (exec.Path c) ∧
    proxy_LocalAddr w = Ok addr ∧
    net_SplitHostPort w addr = Ok (host, port) ∧
    homedir_Dir w = Ok home ∧
    exec.Args c = [exec.Path c; "--defaults-extra-file=" +:+ file;
                   "-s"; "-t"; "-h"; host; "-P"; port] ∧
    exec.Env c =
      os_Environ w ++
      ["MYSQL_HISTFILE=" +:+
         filepath.Join [filepath.Join [home; ".pscale"; "history"];
                        Organization w +:+ "." +:+ db +:+ "." +:+ branch]] ++
      (if supportsPrompt w (exec.Path c)
       then ["MYSQL_PS1=" +:+ formatMySQLBranch w db branch] else []).
Proof.
  intros Hin.
  destruct (RunE_started w args files c Hin)
    as (db & branch & file & addr & host & port & home &
        Hdb & Hpath & Hlook & Hfile & Haddr & Hsplit & Hhome & _ & Hc).
  exists file, addr, host, port, home, db, branch.
  repeat split; try assumption; rewrite Hc at 1; reflexivity.
Qed.

Lemma credential_file_by_argument_witness :
  let w := Scenario.clean in
  let r := session w ["shop"; "main"] ∅ in
  ∃ c, c ∈ started (trace r.2) ∧
  ∃ file addr host port home db branch,
    ["shop"; "main"] !! 0%nat = Some db ∧
    lookups (trace r.2) = [(Organization w, db, branch)] ∧
    created (trace r.2) = [file] ∧
    MySQLClientPath w = Ok (exec.Path c) ∧
    proxy_LocalAddr w = Ok addr ∧
    net_SplitHostPort w addr = Ok (host, port) ∧
    homedir_Dir w = Ok home ∧
    exec.Args c = [exec.Path c; "--defaults-extra-file=" +:+ file;
                   "-s"; "-t"; "-h"; host; "-P"; port] ∧
    exec.Env c =
      os_Environ w ++
      ["MYSQL_HISTFILE=" +:+
         filepath.Join [filepath.Join [home; ".pscale"; "history"];
                        Organization w +:+ "." +:+ db +:+ "." +:+ branch]] ++
      (if supportsPrompt w (exec.Path c)
       then ["MYSQL_PS1=" +:+ formatMySQLBranch w db branch] else []).
Proof.
  eexists. split; [vm_compute; left|].
  apply (credential_file_by_argument Scenario.clean ["shop"; "main"] ∅).
  vm_compute; left.
Defined.

(** C2 (counterexample): in a clean session the path of the credential
    file is among the command-line arguments of the client and in none of
    its environment variables. *)
Lemma credential_file_path_in_args :
  let r := session Scenario.clean ["shop"; "main"] ∅ in
  ∃ c file,
    started (trace r.2) = [c] ∧ created (trace r.2) = [file] ∧
    exec.Args c = ["/usr/bin/mysql"; "--defaults-extra-file=/tmp/pscale-123456789";
                   "-s"; "-t"; "-h"; "127.0.0.1"; "-P"; "54321"] ∧
    path_in_args c file = true ∧
    path_in_env c file = false ∧
    pointed_by_env_only c file = false.
Proof. do 2 eexists. vm_compute. repeat split; reflexivity. Qed.

(** C6: the launcher sets the prompt exactly when the Capability Detector
    reports support for the client binary; the prompt is the database in
    bold, a slash, the branch and [> ], the branch in the red style when it
    is [main] and in the blue style of every other branch otherwise. *)
Theorem prompt_iff_capability w args files c :
  c ∈ started (trace (session w args files).2) →
  ∃ db branch hist,
    lookups (trace (session w args files).2) = [(Organization w, db, branch)] ∧
    exec.Env c =
      os_Environ w ++ ["MYSQL_HISTFILE=" +:+ hist] ++
      (if supportsPrompt w (exec.Path c)
       then ["MYSQL_PS1=" +:+ Bold w db +:+ "/" +:+
               (if decide (branch = "main") then BoldRed w branch
                else BoldBlue w branch) +:+ "> "]
       else []).
Proof.
  intros Hin.
  destruct (RunE_started w args files c Hin)
    as (db & branch & file & addr & host & port & home &
        _ & _ & Hlook & _ & _ & _ & _ & _ & Hc).
  exists db, branch. eexists. split; [assumption|].
  rewrite Hc at 1. reflexivity.
Qed.

Lemma prompt_iff_capability_witness :
  let w := Scenario.clean in
  let r := session w ["shop"; "main"] ∅ in
  ∃ c, c ∈ started (trace r.2) ∧ supportsPrompt w (exec.Path c) = true ∧
  ∃ db branch hist,
    lookups (trace r.2) = [(Organization w, db, branch)] ∧
    exec.Env c =
      os_Environ w ++ ["MYSQL_HISTFILE=" +:+ hist] ++
      (if supportsPrompt w (exec.Path c)
       then ["MYSQL_PS1=" +:+ Bold w db +:+ "/" +:+
               (if decide (branch = "main") then BoldRed w branch
                else BoldBlue w branch) +:+ "> "]
       else []).
Proof.
  eexists. split; [vm_compute; left|]. split; [reflexivity|].
  apply (prompt_iff_capability Scenario.clean ["shop"; "main"] ∅).
  vm_compute; left.
Defined.

(** ** The client that cannot be started *)

(** C1 (the code at the failing input): when the client cannot be started,
    the process exits inside [mysql.Run]; the deferred removal does not
    run and the credential file stays, with the credentials in it. *)
Theorem spawn_failure_leaves_credential_file :
  let r := session Scenario.spawn_failure ["shop"; "main"] ∅ in
  r.1 = Exit 1 ∧
  created (trace r.2) = ["/tmp/pscale-123456789"] ∧
  removed (trace r.2) = [] ∧
  fs r.2 !! "/tmp/pscale-123456789" = Some (loginFile "shop_ro" "secret").
Proof. vm_compute. repeat split; reflexivity. Qed.

(** C7 (the code at the failing input): a client that cannot be started
    ends the process with status 1 and a line on standard error; nothing
    is returned to the caller.  A client that exits with status 3 is
    returned as the error of the session. *)
Theorem spawn_failure_is_not_returned :
  (session Scenario.spawn_failure ["shop"; "main"] ∅).1 = Exit 1 ∧
  stderr (session Scenario.spawn_failure ["shop"; "main"] ∅).2
    = ["fork/exec /usr/bin/mysql: permission denied" +:+ Str.LF] ∧
  (session Scenario.client_exit ["shop"; "main"] ∅).1 = Return (ExitError 3).
Proof. vm_compute. repeat split; reflexivity. Qed.

(** C8 (the code at the failing input): on Windows [checkLibs] runs a
    command with an empty name, which fails: it reports "not linked"
    together with an error, where on Linux it reports "not linked" without
    an error and without running anything. *)
Theorem checkLibs_windows_reports_error :
  supportsPrompt Scenario.windows "/usr/bin/mysql" = false ∧
  checkLibs_err Scenario.windows "/usr/bin/mysql"
    = Some (errorString ("failed to check linking: exec: no command"
                         +:+ Str.LF +:+ "output: ")) ∧
  checkLibs_events Scenario.windows "/usr/bin/mysql"
    = [EvCheckLibs; EvExec "" ["/usr/bin/mysql"]] ∧
  checkLibs_err Scenario.client_exit "/usr/bin/mysql" = None ∧
  checkLibs_events Scenario.client_exit "/usr/bin/mysql" = [EvCheckLibs].
Proof. vm_compute. repeat split; reflexivity. Qed.

(** ** Paths *)
















Lemma Join_nonempty a l : a ≠ "" → filepath.Join (a :: l) ≠ "".
Proof.
  intros H. simpl. destruct (decide (a = "")); [contradiction|apply Clean_nonempty].
Qed.


(** ** History files *)








(** * Further properties of the functions *)

(** ** isLinked and checkLibs *)

(** X1: [isLinked] answers yes exactly for an output that has [libreadline] or
    [libedit] somewhere in it. *)
Theorem isLinked_iff libs :
  isLinked libs = true ↔
  ∃ pre post, libs = pre +:+ "libreadline" +:+ post ∨ libs = pre +:+ "libedit" +:+ post.
Proof.
  unfold isLinked. split.
  - destruct (Str.Contains libs "libreadline") eqn:H1.
    + apply Contains_inv in H1 as (pre & post & ->). eauto.
    + destruct (Str.Contains libs "libedit") eqn:H2; [|discriminate].
      apply Contains_inv in H2 as (pre & post & ->). eauto.
  - intros (pre & post & [-> | ->]).
    + rewrite Contains_intro. reflexivity.
    + rewrite (Contains_intro pre "libedit" post), orb_true_r. reflexivity.
Qed.

(** X2: Outside macOS [checkLibs] never reports a linked client, whatever the
    tools of the host answer. *)
Theorem checkLibs_only_darwin_supports w mysqlPath :
  GOOS w ≠ "darwin" → supportsPrompt w mysqlPath = false.
Proof.
  intros Hos.
  assert (H : wp (checkLibs w mysqlPath)
                (λ r _, ∀ linked, r = Val linked → linked = false) (initial ∅)).
  { unfold checkLibs, exec_CombinedOutput.
    repeat wp_step; intros linked [= <-]; try reflexivity.
    simpl in *. congruence. }
  unfold wp in H. unfold supportsPrompt.
  destruct (checkLibs w mysqlPath (initial ∅)) as [[linked| | |] ?]; auto.
Qed.

Lemma checkLibs_only_darwin_supports_witness :
  GOOS Scenario.windows ≠ "darwin" ∧
  CombinedOutput Scenario.windows "otool" ["-L"; "/usr/bin/mysql"]
    = ("/usr/lib/libedit.3.dylib", None) ∧
  supportsPrompt Scenario.windows "/usr/bin/mysql" = false.
Proof.
  split; [discriminate|]. split; [reflexivity|].
  apply (checkLibs_only_darwin_supports Scenario.windows "/usr/bin/mysql").
  discriminate.
Defined.

(** X3: On Linux (and on the platform named unix) [checkLibs] answers "not
    linked" without an error and without running any tool. *)
Theorem checkLibs_linux w mysqlPath s :
  GOOS w = "linux" ∨ GOOS w = "unix" →
  checkLibs w mysqlPath s = (Val false, add_event EvCheckLibs s).
Proof.
  intros Hos. apply wp_run_eq. unfold checkLibs.
  repeat wp_step; try reflexivity; destruct Hos; congruence.
Qed.

Lemma checkLibs_linux_witness :
  (GOOS Scenario.client_exit = "linux" ∨ GOOS Scenario.client_exit = "unix") ∧
  checkLibs Scenario.client_exit "/usr/bin/mysql" (initial ∅)
    = (Val false, add_event EvCheckLibs (initial ∅)).
Proof.
  split; [left; reflexivity|].
  apply (checkLibs_linux Scenario.client_exit "/usr/bin/mysql" (initial ∅)).
  left; reflexivity.
Defined.

(** X4: On macOS [checkLibs] runs [otool -L] on the client binary, once; when
    the tool succeeds the answer is [isLinked] of its output. *)
Theorem checkLibs_darwin_otool w mysqlPath s out :
  GOOS w = "darwin" →
  CombinedOutput w "otool" ["-L"; mysqlPath] = (out, None) →
  checkLibs w mysqlPath s =
  (Val (isLinked out),
   add_event (EvExec "otool" ["-L"; mysqlPath]) (add_event EvCheckLibs s)).
Proof.
  intros Hos Hout. apply wp_run_eq. unfold checkLibs, exec_CombinedOutput.
  repeat wp_step; try congruence.
  all: simpl in *; rewrite Hout in *; congruence.
Qed.

Lemma checkLibs_darwin_otool_witness :
  GOOS Scenario.clean = "darwin" ∧
  CombinedOutput Scenario.clean "otool" ["-L"; "/usr/bin/mysql"]
    = ("/usr/lib/libedit.3.dylib", None) ∧
  checkLibs Scenario.clean "/usr/bin/mysql" (initial ∅) =
  (Val (isLinked "/usr/lib/libedit.3.dylib"),
   add_event (EvExec "otool" ["-L"; "/usr/bin/mysql"])
     (add_event EvCheckLibs (initial ∅))).
Proof.
  split; [reflexivity|]. split; [reflexivity|].
  apply (checkLibs_darwin_otool Scenario.clean "/usr/bin/mysql" (initial ∅));
    reflexivity.
Defined.

(** X5: When the tool fails on macOS, [checkLibs] answers "not linked" with an
    error that carries the failure and the output of the tool. *)
Theorem checkLibs_darwin_failure w mysqlPath s out err :
  GOOS w = "darwin" →
  CombinedOutput w "otool" ["-L"; mysqlPath] = (out, Some err) →
  checkLibs w mysqlPath s =
  (Return (errorString ("failed to check linking: " +:+ Error err +:+ Str.LF
                        +:+ "output: " +:+ out)),
   add_event (EvExec "otool" ["-L"; mysqlPath]) (add_event EvCheckLibs s)) ∧
  supportsPrompt w mysqlPath = false.
Proof.
  intros Hos Hout.
  assert (Heq : ∀ s0, checkLibs w mysqlPath s0 =
    (Return (errorString ("failed to check linking: " +:+ Error err +:+ Str.LF
                          +:+ "output: " +:+ out)),
     add_event (EvExec "otool" ["-L"; mysqlPath]) (add_event EvCheckLibs s0))).
  { intros s0. apply wp_run_eq. unfold checkLibs, exec_CombinedOutput.
    repeat wp_step; try congruence.
    all: simpl in *; rewrite Hout in *; congruence. }
  split; [apply Heq|]. unfold supportsPrompt. rewrite Heq. reflexivity.
Qed.

Lemma checkLibs_darwin_failure_witness :
  let w := Scenario.no_otool in
  GOOS w = "darwin" ∧
  CombinedOutput w "otool" ["-L"; "/usr/bin/mysql"]
    = ("otool: not found", Some (errorString "exit status 127")) ∧
  checkLibs w "/usr/bin/mysql" (initial ∅) =
  (Return (errorString ("failed to check linking: " +:+ "exit status 127" +:+ Str.LF
                        +:+ "output: " +:+ "otool: not found")),
   add_event (EvExec "otool" ["-L"; "/usr/bin/mysql"])
     (add_event EvCheckLibs (initial ∅))) ∧
  supportsPrompt w "/usr/bin/mysql" = false.
Proof.
  split; [reflexivity|]. split; [reflexivity|].
  apply (checkLibs_darwin_failure Scenario.no_otool "/usr/bin/mysql" (initial ∅)
           "otool: not found" (errorString "exit status 127"));
    reflexivity.
Defined.

(** ** mysql.Run *)

(** X6: Without the debug flag [mysql.Run] prints nothing about the linking
    check, whether it failed or not. *)
Theorem Run_quiet_without_debug w m args s :
  debug m = false → stdout (Run w m args s).2 = stdout s.
Proof.
  intros Hdebug. rewrite Run_eq. st_simpl.
  unfold Run_report. rewrite Hdebug. apply app_nil_r.
Qed.

Lemma Run_quiet_without_debug_witness :
  let m := session_mysql Scenario.client_exit "/usr/bin/mysql" "/home/op" "shop" "main" in
  debug m = false ∧
  stdout (Run Scenario.client_exit m [] (initial ∅)).2 = stdout (initial ∅).
Proof.
  split; [reflexivity|].
  apply (Run_quiet_without_debug Scenario.client_exit
           (session_mysql Scenario.client_exit "/usr/bin/mysql" "/home/op" "shop" "main")
           [] (initial ∅)).
  reflexivity.
Defined.

(** X7: With the debug flag [mysql.Run] prints one line about the linking
    check: the failure when the check failed, else whether the client is
    linked. *)
Theorem Run_debug_report w m args s :
  debug m = true →
  ∃ line, stdout (Run w m args s).2 = stdout s ++ [line] ∧
    match checkLibs_err w (mysqlPath m) with
    | Some e => line = "failed to check linking: " +:+ Error e
    | None =>
        line = (if supportsPrompt w (mysqlPath m)
                then "mysql is linked against readline/editline"
                else "mysql is not linked against readline/editline") +:+ Str.LF
    end.
Proof.
  intros Hdebug. rewrite Run_eq. st_simpl.
  unfold Run_report. rewrite Hdebug.
  destruct (checkLibs_err w (mysqlPath m)); [eauto|].
  destruct (supportsPrompt w (mysqlPath m)); eauto.
Qed.

Lemma Run_debug_report_witness :
  let w := Scenario.windows in
  let m := session_mysql w "/usr/bin/mysql" "/home/op" "shop" "main" in
  debug m = true ∧
  ∃ line, stdout (Run w m [] (initial ∅)).2 = stdout (initial ∅) ++ [line] ∧
    match checkLibs_err w (mysqlPath m) with
    | Some e => line = "failed to check linking: " +:+ Error e
    | None =>
        line = (if supportsPrompt w (mysqlPath m)
                then "mysql is linked against readline/editline"
                else "mysql is not linked against readline/editline") +:+ Str.LF
    end.
Proof.
  split; [reflexivity|].
  apply (Run_debug_report Scenario.windows
           (session_mysql Scenario.windows "/usr/bin/mysql" "/home/op" "shop" "main")
           [] (initial ∅)).
  reflexivity.
Defined.

(** X8: A failed linking check does not stop [mysql.Run]: the client is
    started all the same, without a prompt variable, with the arguments it
    was given after the program name, in the directory of the caller. *)
Theorem Run_starts_after_failed_check w m args s e :
  checkLibs_err w (mysqlPath m) = Some e →
  started (trace (Run w m args s).2) =
  started (trace s) ++
    [{| exec.Path := mysqlPath m;
        exec.Args := mysqlPath m :: args;
        exec.Env := os_Environ w ++ ["MYSQL_HISTFILE=" +:+ historyFile m];
        exec.Dir := dir m |}].
Proof.
  intros Herr. rewrite Run_eq. st_simpl. unfold started, Run_cmd.
  rewrite (checkLibs_err_unsupported _ _ _ Herr).
  rewrite !omap_app.
  destruct (checkLibs_events_cases w (mysqlPath m)) as [->|(? & ? & ->)];
    destruct (Start w _); reflexivity.
Qed.

Lemma Run_starts_after_failed_check_witness :
  let w := Scenario.windows in
  let m := session_mysql w "/usr/bin/mysql" "/home/op" "shop" "main" in
  checkLibs_err w (mysqlPath m)
    = Some (errorString ("failed to check linking: exec: no command"
                         +:+ Str.LF +:+ "output: ")) ∧
  started (trace (Run w m ["-s"] (initial ∅)).2) =
  started (trace (initial ∅)) ++
    [{| exec.Path := mysqlPath m;
        exec.Args := mysqlPath m :: ["-s"];
        exec.Env := os_Environ w ++ ["MYSQL_HISTFILE=" +:+ historyFile m];
        exec.Dir := dir m |}].
Proof.
  split; [reflexivity|].
  apply (Run_starts_after_failed_check Scenario.windows
           (session_mysql Scenario.windows "/usr/bin/mysql" "/home/op" "shop" "main")
           ["-s"] (initial ∅) _ eq_refl).
Defined.

(** X9: [mysql.Run] hands the error of [Wait] (a non-zero exit, a killed
    client) to its caller unchanged, and leaves the files and standard
    error alone. *)
Theorem Run_returns_wait_error w m args s e :
  Start w (Run_cmd w m args) = None →
  Wait w (Run_cmd w m args) = Some e →
  (Run w m args s).1 = Return e ∧
  fs (Run w m args s).2 = fs s ∧
  stderr (Run w m args s).2 = stderr s.
Proof.
  intros Hstart Hwait. rewrite Run_eq. st_simpl.
  unfold Run_result. rewrite Hstart, Hwait, app_nil_r. auto.
Qed.

Lemma Run_returns_wait_error_witness :
  let w := Scenario.client_exit in
  let m := session_mysql w "/usr/bin/mysql" "/home/op" "shop" "main" in
  Start w (Run_cmd w m []) = None ∧
  Wait w (Run_cmd w m []) = Some (ExitError 3) ∧
  (Run w m [] (initial ∅)).1 = Return (ExitError 3) ∧
  fs (Run w m [] (initial ∅)).2 = fs (initial ∅) ∧
  stderr (Run w m [] (initial ∅)).2 = stderr (initial ∅).
Proof.
  split; [reflexivity|]. split; [reflexivity|].
  apply (Run_returns_wait_error Scenario.client_exit
           (session_mysql Scenario.client_exit "/usr/bin/mysql" "/home/op" "shop" "main")
           [] (initial ∅)); reflexivity.
Defined.

(** X10: When the client cannot be started, [mysql.Run] does not return: the
    process exits with status 1 after one line on standard error, and
    [Wait] is never called. *)
Theorem Run_exits_on_start_failure w m args s e :
  Start w (Run_cmd w m args) = Some e →
  (Run w m args s).1 = Exit 1 ∧
  stderr (Run w m args s).2 = stderr s ++ [Error e +:+ Str.LF] ∧
  fs (Run w m args s).2 = fs s ∧
  ∃ evs, trace (Run w m args s).2 = trace s ++ evs ∧ EvWait ∉ evs.
Proof.
  intros Hstart. rewrite Run_eq. st_simpl.
  unfold Run_result. rewrite Hstart. repeat split.
  eexists. split; [reflexivity|].
  destruct (checkLibs_events_cases w (mysqlPath m)) as [->|(? & ? & ->)];
    intros Hin; repeat (apply elem_of_cons in Hin as [Hin|Hin]; [discriminate|]);
    apply elem_of_nil in Hin; exact Hin.
Qed.

Lemma Run_exits_on_start_failure_witness :
  let w := Scenario.spawn_failure in
  let m := session_mysql w "/usr/bin/mysql" "/home/op" "shop" "main" in
  let e := errorString "fork/exec /usr/bin/mysql: permission denied" in
  Start w (Run_cmd w m []) = Some e ∧
  (Run w m [] (initial ∅)).1 = Exit 1 ∧
  stderr (Run w m [] (initial ∅)).2 = stderr (initial ∅) ++ [Error e +:+ Str.LF] ∧
  fs (Run w m [] (initial ∅)).2 = fs (initial ∅) ∧
  ∃ evs, trace (Run w m [] (initial ∅)).2 = trace (initial ∅) ++ evs ∧ EvWait ∉ evs.
Proof.
  split; [reflexivity|].
  apply (Run_exits_on_start_failure Scenario.spawn_failure
           (session_mysql Scenario.spawn_failure "/usr/bin/mysql" "/home/op" "shop" "main")
           [] (initial ∅)).
  reflexivity.
Defined.

(** ** createLoginFile *)

(** X11: When the temporary file cannot be created, [createLoginFile] prints
    the failure on standard output and returns it; no file is made and no
    write is attempted. *)
Theorem createLoginFile_open_failure w u p s e :
  TempFile_err w = Some e →
  createLoginFile w u p s =
  (Return e,
   add_stdout (("could not create temporary file:  " +:+ Error e) +:+ Str.LF) s).
Proof.
  intros Herr. apply wp_run_eq. apply wp_createLoginFile.
  - intros e' [He|(He & _)]; [|congruence].
    assert (e' = e) as -> by congruence. reflexivity.
  - congruence.
Qed.

Lemma createLoginFile_open_failure_witness :
  let e := errorString "open /tmp/pscale-1: permission denied" in
  TempFile_err Scenario.no_tempfile = Some e ∧
  createLoginFile Scenario.no_tempfile "shop_ro" "secret" (initial ∅) =
  (Return e,
   add_stdout (("could not create temporary file:  " +:+ Error e) +:+ Str.LF)
     (initial ∅)).
Proof.
  split; [reflexivity|].
  apply (createLoginFile_open_failure Scenario.no_tempfile "shop_ro" "secret" (initial ∅)).
  reflexivity.
Defined.

(** X12: [createLoginFile] never reuses a name: the file it returns did not
    exist before, its name is not empty, and every other file is as it
    was. *)
Theorem createLoginFile_fresh w u p s name :
  (createLoginFile w u p s).1 = Val name →
  name ≠ "" ∧ fs s !! name = None ∧
  ∀ other, other ≠ name → fs (createLoginFile w u p s).2 !! other = fs s !! other.
Proof.
  intros (_ & _ & Hname & Hfresh & ->)%createLoginFile_Val.
  split; [assumption|]. split; [assumption|].
  intros other Hother. st_simpl. apply lookup_insert_ne. congruence.
Qed.

Lemma createLoginFile_fresh_witness :
  let s := initial {[ "/tmp/pscale-123456789" := loginFile "old" "old" ]} in
  (createLoginFile Scenario.clean "shop_ro" "secret" s).1 = Val "/tmp/pscale-987654321" ∧
  "/tmp/pscale-987654321" ≠ "" ∧ fs s !! "/tmp/pscale-987654321" = None ∧
  ∀ other, other ≠ "/tmp/pscale-987654321" →
    fs (createLoginFile Scenario.clean "shop_ro" "secret" s).2 !! other = fs s !! other.
Proof.
  split; [reflexivity|].
  apply (createLoginFile_fresh Scenario.clean "shop_ro" "secret"
           (initial {[ "/tmp/pscale-123456789" := loginFile "old" "old" ]})).
  reflexivity.
Defined.

(** X13: Two credential files made one after the other, the first still on
    disk, have different names: a session never gets the file of another
    one. *)
Theorem createLoginFile_twice_distinct w w' u p u' p' s name name' :
  (createLoginFile w u p s).1 = Val name →
  (createLoginFile w' u' p' (createLoginFile w u p s).2).1 = Val name' →
  name ≠ name'.
Proof.
  intros H1 H2.
  destruct (createLoginFile_Val _ _ _ _ _ H1) as (_ & _ & _ & _ & Hs).
  destruct (createLoginFile_Val _ _ _ _ _ H2) as (_ & _ & _ & Hfresh & _).
  rewrite Hs in Hfresh. cbn [fs add_event set_fs] in Hfresh.
  intros <-. rewrite lookup_insert_eq in Hfresh. discriminate.
Qed.

Lemma createLoginFile_twice_distinct_witness :
  let w := Scenario.clean in
  (createLoginFile w "shop_ro" "secret" (initial ∅)).1 = Val "/tmp/pscale-123456789" ∧
  (createLoginFile w "shop_rw" "hidden"
     (createLoginFile w "shop_ro" "secret" (initial ∅)).2).1
    = Val "/tmp/pscale-987654321" ∧
  "/tmp/pscale-123456789" ≠ "/tmp/pscale-987654321".
Proof.
  split; [reflexivity|]. split; [reflexivity|].
  apply (createLoginFile_twice_distinct Scenario.clean Scenario.clean
           "shop_ro" "secret" "shop_rw" "hidden" (initial ∅));
    reflexivity.
Defined.

(** ** historyFilePath *)

(** X14: [historyFilePath] changes no file and prints nothing; it makes the
    history directory, with mode 0771, exactly when [os.Stat] says that it
    does not exist, and makes no other call. *)
Theorem historyFilePath_effects w org db branch s :
  let s' := (historyFilePath w org db branch s).2 in
  fs s' = fs s ∧ stdout s' = stdout s ∧ stderr s' = stderr s ∧
  trace s' = trace s ++
    match homedir_Dir w with
    | Ok home =>
        let d := filepath.Join [home; ".pscale"; "history"] in
        if os_Stat_IsNotExist w d then [EvMkdirAll d mode_0771] else []
    | Err _ => []
    end.
Proof.
  change (wp (historyFilePath w org db branch)
            (λ _ s', fs s' = fs s ∧ stdout s' = stdout s ∧ stderr s' = stderr s ∧
               trace s' = trace s ++
                 match homedir_Dir w with
                 | Ok home =>
                     let d := filepath.Join [home; ".pscale"; "history"] in
                     if os_Stat_IsNotExist w d then [EvMkdirAll d mode_0771] else []
                 | Err _ => []
                 end) s).
  unfold historyFilePath. wp_step. apply wp_try.
  destruct (homedir_Dir w) as [home|e]; wp_simpl.
  - destruct (os_Stat_IsNotExist w _); repeat wp_step;
      st_simpl; rewrite ?app_nil_r; auto.
  - rewrite app_nil_r. auto.
Qed.

(** X15: The errors of [historyFilePath] are the error of the home directory
    lookup and the error of making the history directory; otherwise it
    returns a path. *)
Theorem historyFilePath_errors w org db branch s e :
  (historyFilePath w org db branch s).1 = Return e →
  homedir_Dir w = Err e ∨
  ∃ home, homedir_Dir w = Ok home ∧
    os_Stat_IsNotExist w (filepath.Join [home; ".pscale"; "history"]) = true ∧
    os_MkdirAll w (filepath.Join [home; ".pscale"; "history"]) mode_0771 = Some e.
Proof.
  change (wp (historyFilePath w org db branch)
            (λ r _, r = Return e →
               homedir_Dir w = Err e ∨
               ∃ home, homedir_Dir w = Ok home ∧
                 os_Stat_IsNotExist w (filepath.Join [home; ".pscale"; "history"]) = true ∧
                 os_MkdirAll w (filepath.Join [home; ".pscale"; "history"]) mode_0771
                   = Some e) s).
  unfold historyFilePath. repeat wp_step; intros [= <-]; eauto.
Qed.

Lemma historyFilePath_errors_witness :
  let e := errorString "mkdir /home/op/.pscale: permission denied" in
  let w := Scenario.no_history_dir in
  (historyFilePath w "acme" "shop" "main" (initial ∅)).1 = Return e ∧
  (homedir_Dir w = Err e ∨
   ∃ home, homedir_Dir w = Ok home ∧
     os_Stat_IsNotExist w (filepath.Join [home; ".pscale"; "history"]) = true ∧
     os_MkdirAll w (filepath.Join [home; ".pscale"; "history"]) mode_0771 = Some e).
Proof.
  split; [reflexivity|].
  apply (historyFilePath_errors Scenario.no_history_dir "acme" "shop" "main" (initial ∅)).
  reflexivity.
Defined.



(** * Further properties of the command *)

(** ** The credential file of a session *)

(** What a session does to the files: it makes at most one, for the
    credentials of the status answer; when [RunE] returns the file has
    been handed to [os.Remove], when the process exits it has not. *)
Lemma RunE_files w args files :
  wp (RunE w args) (λ r s',
    match created (trace s') with
    | [] => fs s' = files ∧ removed (trace s') = [] ∧ ∀ c, r ≠ Exit c
    | [n] =>
        files !! n = None ∧ n ≠ "" ∧
        ∃ o d b st,
          statuses (trace s') = [(o, d, b)] ∧
          DatabaseBranches_GetStatus w o d b = Ok st ∧
          ps.User st ≠ "" ∧
          match r with
          | Exit _ =>
              removed (trace s') = [] ∧
              fs s' = <[n := written_file w (ps.User st) (ps.Password st)]> files
          | _ =>
              removed (trace s') = [n] ∧
              fs s' = match os_Remove_err w n with
                      | Some _ => <[n := written_file w (ps.User st) (ps.Password st)]> files
                      | None => delete n (<[n := written_file w (ps.User st) (ps.Password st)]> files)
                      end
          end
    | _ => False
    end) (initial files).
Proof.
  unfold RunE. wp_run.
  all: st_rewrite; cases_libs; tr_simpl.
  all: try (repeat split; [reflexivity..|intros ? [=]]).
  all: repeat split; try assumption; do 4 eexists; repeat split; try eassumption; reflexivity.
Qed.




(** X18: Whenever the process exits inside [RunE], the credential file of the
    session is still on disk, with what was written of the credentials,
    and [os.Remove] was not called. *)
Theorem RunE_exit_leaves_credentials w args files code :
  (session w args files).1 = Exit code →
  ∃ name o d b st,
    created (trace (session w args files).2) = [name] ∧
    removed (trace (session w args files).2) = [] ∧
    DatabaseBranches_GetStatus w o d b = Ok st ∧
    fs (session w args files).2 !! name
      = Some (written_file w (ps.User st) (ps.Password st)).
Proof.
  intros Hexit. pose proof (RunE_files w args files) as H.
  unfold wp in H. fold (session w args files) in H. rewrite Hexit in H.
  destruct (created (trace (session w args files).2)) as [|n [|]];
    [destruct H as (_ & _ & H); destruct (H code eq_refl)| |destruct H].
  destruct H as (_ & _ & o & d & b & st & _ & Hst & _ & Hrm & Hfs).
  exists n, o, d, b, st. rewrite Hfs, lookup_insert_eq. auto.
Qed.

Lemma RunE_exit_leaves_credentials_witness :
  let w := Scenario.spawn_failure in
  (session w ["shop"] ∅).1 = Exit 1 ∧
  ∃ name o d b st,
    created (trace (session w ["shop"] ∅).2) = [name] ∧
    removed (trace (session w ["shop"] ∅).2) = [] ∧
    DatabaseBranches_GetStatus w o d b = Ok st ∧
    fs (session w ["shop"] ∅).2 !! name
      = Some (written_file w (ps.User st) (ps.Password st)).
Proof.
  split; [reflexivity|].
  apply (RunE_exit_leaves_credentials Scenario.spawn_failure ["shop"] ∅ 1).
  reflexivity.
Defined.



(** ** The result of a session *)

(** The result of a session is the result of its client once the client
    was asked to start; before that [RunE] can only return an error (or
    panic on an empty argument list). *)
Lemma RunE_result w args files :
  wp (RunE w args) (λ r s',
    match started (trace s') with
    | [] => (∀ code, r ≠ Exit code) ∧ r ≠ Val tt ∧ stderr s' = []
    | [c] =>
        r = Run_result w c ∧
        stderr s' = match Start w c with
                    | Some e => [Error e +:+ Str.LF]
                    | None => []
                    end
    | _ => False
    end) (initial files).
Proof.
  unfold RunE. wp_run.
  all: st_rewrite; cases_libs; tr_simpl.
  all: try (repeat split; [intros ? [=]|intros [=]]).
  all: unfold Run_result;
    repeat match goal with
           | H : Start _ _ = _ |- _ => rewrite H
           | H : Wait _ _ = _ |- _ => rewrite H
           end; split; reflexivity.
Qed.

(** X20: [RunE] returns nil exactly when the client was started and exited
    cleanly. *)
Theorem RunE_success_iff w args files :
  (session w args files).1 = Val tt ↔
  ∃ c, started (trace (session w args files).2) = [c] ∧
       Start w c = None ∧ Wait w c = None.
Proof.
  pose proof (RunE_result w args files) as H.
  unfold wp in H. fold (session w args files) in H.
  destruct (started (trace (session w args files).2)) as [|c [|]]; [| |destruct H].
  - destruct H as (_ & H & _). split; [contradiction|intros (? & [=] & _)].
  - destruct H as [-> _]. unfold Run_result. split.
    + intros H. exists c. destruct (Start w c); [discriminate|].
      destruct (Wait w c); [discriminate|]. auto.
    + intros (? & [= <-] & -> & ->). reflexivity.
Qed.

(** X21: A non-zero exit of the client (any error of [Wait]) is the error of
    the session. *)
Theorem RunE_client_error_surfaced w args files c e :
  c ∈ started (trace (session w args files).2) →
  Start w c = None → Wait w c = Some e →
  (session w args files).1 = Return e.
Proof.
  intros Hin Hstart Hwait. pose proof (RunE_result w args files) as H.
  unfold wp in H. fold (session w args files) in H.
  destruct (started (trace (session w args files).2)) as [|c' [|]];
    [apply elem_of_nil in Hin; contradiction| |destruct H].
  apply list_elem_of_singleton in Hin as ->. destruct H as [-> _].
  unfold Run_result. rewrite Hstart, Hwait. reflexivity.
Qed.

Lemma RunE_client_error_surfaced_witness :
  let w := Scenario.client_exit in
  let c := Run_cmd w (session_mysql w "/usr/bin/mysql" "/home/op" "shop" "main")
             (mysqlArgs "/tmp/pscale-123456789" "127.0.0.1" "54321") in
  c ∈ started (trace (session w ["shop"; "main"] ∅).2) ∧
  Start w c = None ∧ Wait w c = Some (ExitError 3) ∧
  (session w ["shop"; "main"] ∅).1 = Return (ExitError 3).
Proof.
  split; [vm_compute; left|]. split; [reflexivity|]. split; [reflexivity|].
  apply (RunE_client_error_surfaced Scenario.client_exit ["shop"; "main"] ∅
           (Run_cmd Scenario.client_exit
              (session_mysql Scenario.client_exit "/usr/bin/mysql" "/home/op" "shop" "main")
              (mysqlArgs "/tmp/pscale-123456789" "127.0.0.1" "54321"))
           (ExitError 3));
    [vm_compute; left | reflexivity | reflexivity].
Defined.

(** X22: The process exits inside [RunE] only when the client could not be
    started: the status is 1 and the failure is the one line on standard
    error. *)
Theorem RunE_exit_only_on_spawn_failure w args files code :
  (session w args files).1 = Exit code →
  code = 1 ∧
  ∃ c e, started (trace (session w args files).2) = [c] ∧
         Start w c = Some e ∧
         stderr (session w args files).2 = [Error e +:+ Str.LF].
Proof.
  intros Hexit. pose proof (RunE_result w args files) as H.
  unfold wp in H. fold (session w args files) in H. rewrite Hexit in H.
  destruct (started (trace (session w args files).2)) as [|c [|]]; [| |destruct H].
  - destruct H as (H & _). destruct (H code eq_refl).
  - destruct H as [Hres Herr]. unfold Run_result in Hres.
    destruct (Start w c) as [e|] eqn:Hstart.
    + injection Hres as ->. split; [reflexivity|]. exists c, e. auto.
    + destruct (Wait w c); discriminate.
Qed.

Lemma RunE_exit_only_on_spawn_failure_witness :
  let w := Scenario.spawn_failure in
  (session w ["shop"; "main"] ∅).1 = Exit 1 ∧
  1 = 1 ∧
  ∃ c e, started (trace (session w ["shop"; "main"] ∅).2) = [c] ∧
         Start w c = Some e ∧
         stderr (session w ["shop"; "main"] ∅).2 = [Error e +:+ Str.LF].
Proof.
  split; [reflexivity|].
  apply (RunE_exit_only_on_spawn_failure Scenario.spawn_failure ["shop"; "main"] ∅ 1).
  reflexivity.
Defined.

(** ** Before the credential file *)

(** X23: Without an interactive terminal, or with an output format other than
    the human one, the command returns at once: no external call, nothing
    printed, no file touched. *)
Theorem RunE_not_interactive w args files :
  IsTTY w = false ∨ Format w ≠ printer.Human →
  args ≠ [] →
  session w args files =
  (Return (errorString "pscale shell only works in interactive mode"), initial files).
Proof.
  intros Hmode Hargs. unfold session. apply wp_run_eq. unfold RunE.
  wp_step. apply wp_index.
  destruct args as [|database rest]; [contradiction|]. simpl. wp_simpl.
  assert (negb (IsTTY w) || negb (bool_decide (Format w = printer.Human)) = true) as ->.
  { destruct Hmode as [->|Hne]; [reflexivity|].
    rewrite bool_decide_eq_false_2 by assumption. apply orb_true_r. }
  reflexivity.
Qed.

Lemma RunE_not_interactive_witness :
  (IsTTY Scenario.no_tty = false ∨ Format Scenario.no_tty ≠ printer.Human) ∧
  ["shop"] ≠ [] ∧
  session Scenario.no_tty ["shop"] ∅ =
  (Return (errorString "pscale shell only works in interactive mode"), initial ∅).
Proof.
  split; [left; reflexivity|]. split; [discriminate|].
  apply (RunE_not_interactive Scenario.no_tty ["shop"] ∅);
    [left; reflexivity | discriminate].
Defined.

(** The target of a session: the organization of the configuration, the
    first argument as database, and as branch the second argument when
    there are two arguments and the second is not empty, the answer of the
    branch prompt otherwise; the prompt is called only in that case.  An
    error of the lookup other than not-found goes through
    [cmdutil.HandleError], before any tunnel call. *)
Lemma RunE_target w args files :
  wp (RunE w args) (λ r s',
    ∀ o d b, (o, d, b) ∈ lookups (trace s') →
      o = Organization w ∧ args !! 0%nat = Some d ∧
      lookups (trace s') = [(o, d, b)] ∧
      (if decide (second_arg args = "")
       then GetBranch w o d = Ok b ∧ prompts (trace s') = [(o, d)]
       else b = second_arg args ∧ prompts (trace s') = []) ∧
      ∀ err, DatabaseBranches_Get w o d b = Some err →
             ErrCode w err ≠ Some ErrNotFound →
             r = Return (HandleError w err) ∧
             tunnel_calls (trace s') = [] ∧ fs s' = files) (initial files).
Proof.
  unfold RunE. wp_run.
  all: st_rewrite; cases_libs.
  all: intros o d b Hin; tr_simpl_in Hin.
  all: try (apply elem_of_nil in Hin; contradiction).
  all: apply list_elem_of_singleton in Hin; injection Hin as -> -> ->.
  all: destruct (decide (second_arg args = "")); try contradiction.
  all: repeat split; try assumption; try reflexivity; congruence.
Qed.

(** X24: The branch of a session is the second argument when there are two
    arguments and the second is not empty, and the answer of the branch
    prompt otherwise, which is asked only then; the database is the first
    argument. *)
Theorem RunE_branch_resolution w args files o d b :
  EvBranchGet o d b ∈ trace (session w args files).2 →
  o = Organization w ∧ args !! 0%nat = Some d ∧
  if decide (second_arg args = "")
  then GetBranch w o d = Ok b ∧ prompts (trace (session w args files).2) = [(o, d)]
  else b = second_arg args ∧ prompts (trace (session w args files).2) = [].
Proof.
  intros Hin%elem_of_lookups.
  destruct (RunE_target w args files o d b Hin) as (? & ? & _ & ? & _). auto.
Qed.

Lemma RunE_branch_resolution_witness :
  let w := Scenario.clean in
  EvBranchGet "acme" "shop" "main" ∈ trace (session w ["shop"] ∅).2 ∧
  second_arg ["shop"] = "" ∧
  "acme" = Organization w ∧ ["shop"] !! 0%nat = Some "shop" ∧
  if decide (second_arg ["shop"] = "")
  then GetBranch w "acme" "shop" = Ok "main"
       ∧ prompts (trace (session w ["shop"] ∅).2) = [("acme", "shop")]
  else "main" = second_arg ["shop"] ∧ prompts (trace (session w ["shop"] ∅).2) = [].
Proof.
  assert (EvBranchGet "acme" "shop" "main" ∈ trace (session Scenario.clean ["shop"] ∅).2)
    as Hin by (vm_compute; right; left).
  split; [exact Hin|]. split; [reflexivity|].
  apply (RunE_branch_resolution Scenario.clean ["shop"] ∅ "acme" "shop" "main" Hin).
Defined.

(** X25: An error of the branch lookup other than not-found is returned through
    [cmdutil.HandleError]; no tunnel call is made and no file is touched. *)
Theorem RunE_lookup_error_handled w args files o d b err :
  EvBranchGet o d b ∈ trace (session w args files).2 →
  DatabaseBranches_Get w o d b = Some err →
  ErrCode w err ≠ Some ErrNotFound →
  (session w args files).1 = Return (HandleError w err) ∧
  tunnel_calls (trace (session w args files).2) = [] ∧
  fs (session w args files).2 = files.
Proof.
  intros Hin%elem_of_lookups Hget Hcode.
  destruct (RunE_target w args files o d b Hin) as (_ & _ & _ & _ & H).
  exact (H err Hget Hcode).
Qed.

Lemma RunE_lookup_error_handled_witness :
  let err := psError (ErrOtherCode "internal") "boom" in
  let w := Scenario.world "linux" (Some err) None None Scenario.complete false in
  EvBranchGet "acme" "shop" "dev" ∈ trace (session w ["shop"; "dev"] ∅).2 ∧
  DatabaseBranches_Get w "acme" "shop" "dev" = Some err ∧
  ErrCode w err ≠ Some ErrNotFound ∧
  (session w ["shop"; "dev"] ∅).1 = Return (HandleError w err) ∧
  tunnel_calls (trace (session w ["shop"; "dev"] ∅).2) = [] ∧
  fs (session w ["shop"; "dev"] ∅).2 = ∅.
Proof.
  intros err w.
  assert (EvBranchGet "acme" "shop" "dev" ∈ trace (session w ["shop"; "dev"] ∅).2)
    as Hin by (vm_compute; left).
  split; [exact Hin|]. split; [reflexivity|]. split; [discriminate|].
  apply (RunE_lookup_error_handled w ["shop"; "dev"] ∅ "acme" "shop" "dev" err Hin);
    [reflexivity | discriminate].
Defined.

(** ** The tunnel and the Credential Broker *)

(** The options of the tunnel client, and what an error of its creation
    does. *)
Lemma RunE_tunnel w args files :
  wp (RunE w args) (λ r s',
    ∀ opts, opts ∈ proxies (trace s') →
      ∃ d b,
        lookups (trace s') = [(Organization w, d, b)] ∧
        opts = {| proxy.LocalAddr :=
                    if decide (flag_localAddr w ≠ "") then flag_localAddr w
                    else "127.0.0.1:0";
                  proxy.RemoteAddr := flag_remoteAddr w;
                  proxy.Instance := Organization w +:+ "/" +:+ d +:+ "/" +:+ b;
                  proxy.LoggerDebug := Debug w |} ∧
        ∀ err, proxy_NewClient w opts = Some err →
               r = Return (errorString ("couldn't create proxy client: " +:+ Error err)) ∧
               tunnel_calls (trace s') = [EvProxyNew opts] ∧
               statuses (trace s') = [] ∧ fs s' = files) (initial files).
Proof.
  unfold RunE. wp_run.
  all: st_rewrite; cases_libs.
  all: intros opts Hin; tr_simpl_in Hin.
  all: try (apply elem_of_nil in Hin; contradiction).
  all: apply list_elem_of_singleton in Hin; subst opts.
  all: do 2 eexists; split; [reflexivity|]; split; [reflexivity|].
  all: intros err' Hnew; try congruence.
  all: repeat split; try reflexivity; congruence.
Qed.

(** X26: The tunnel client is created for the instance
    organization/database/branch of the target, on the local address of
    the flag, or on 127.0.0.1 with a port chosen by the system when the
    flag is empty, and with the remote address of the flag. *)
Theorem RunE_tunnel_options w args files opts :
  EvProxyNew opts ∈ trace (session w args files).2 →
  ∃ d b,
    lookups (trace (session w args files).2) = [(Organization w, d, b)] ∧
    proxy.Instance opts = Organization w +:+ "/" +:+ d +:+ "/" +:+ b ∧
    proxy.LocalAddr opts =
      (if decide (flag_localAddr w = "") then "127.0.0.1:0" else flag_localAddr w) ∧
    proxy.RemoteAddr opts = flag_remoteAddr w ∧
    proxy.LoggerDebug opts = Debug w.
Proof.
  intros Hin.
  assert (opts ∈ proxies (trace (session w args files).2)) as Hopts.
  { unfold proxies. apply list_elem_of_omap. exists (EvProxyNew opts). auto. }
  destruct (RunE_tunnel w args files opts Hopts) as (d & b & Hlook & -> & _).
  exists d, b. repeat split; try assumption. simpl.
  destruct (decide (flag_localAddr w ≠ "")), (decide (flag_localAddr w = ""));
    try reflexivity; contradiction.
Qed.

Lemma RunE_tunnel_options_witness :
  let w := Scenario.clean in
  let opts := {| proxy.LocalAddr := "127.0.0.1:0"; proxy.RemoteAddr := "";
                 proxy.Instance := "acme/shop/main"; proxy.LoggerDebug := true |} in
  EvProxyNew opts ∈ trace (session w ["shop"; "main"] ∅).2 ∧
  ∃ d b,
    lookups (trace (session w ["shop"; "main"] ∅).2) = [(Organization w, d, b)] ∧
    proxy.Instance opts = Organization w +:+ "/" +:+ d +:+ "/" +:+ b ∧
    proxy.LocalAddr opts =
      (if decide (flag_localAddr w = "") then "127.0.0.1:0" else flag_localAddr w) ∧
    proxy.RemoteAddr opts = flag_remoteAddr w ∧
    proxy.LoggerDebug opts = Debug w.
Proof.
  intros w opts.
  assert (EvProxyNew opts ∈ trace (session w ["shop"; "main"] ∅).2) as Hin
    by (vm_compute; right; left).
  split; [exact Hin|].
  apply (RunE_tunnel_options w ["shop"; "main"] ∅ opts Hin).
Defined.

(** X27: When the tunnel client cannot be created the command returns an error
    that wraps the failure; the tunnel is not started, the status is not
    asked for and no file is touched. *)
Theorem RunE_tunnel_error w args files opts err :
  EvProxyNew opts ∈ trace (session w args files).2 →
  proxy_NewClient w opts = Some err →
  (session w args files).1
    = Return (errorString ("couldn't create proxy client: " +:+ Error err)) ∧
  tunnel_calls (trace (session w args files).2) = [EvProxyNew opts] ∧
  statuses (trace (session w args files).2) = [] ∧
  fs (session w args files).2 = files.
Proof.
  intros Hin Hnew.
  assert (opts ∈ proxies (trace (session w args files).2)) as Hopts.
  { unfold proxies. apply list_elem_of_omap. exists (EvProxyNew opts). auto. }
  destruct (RunE_tunnel w args files opts Hopts) as (d & b & _ & _ & H).
  exact (H err Hnew).
Qed.

Lemma RunE_tunnel_error_witness :
  let w := Scenario.no_tunnel in
  let opts := {| proxy.LocalAddr := "127.0.0.1:0"; proxy.RemoteAddr := "";
                 proxy.Instance := "acme/shop/main"; proxy.LoggerDebug := true |} in
  EvProxyNew opts ∈ trace (session w ["shop"; "main"] ∅).2 ∧
  proxy_NewClient w opts = Some (errorString "bad certificate") ∧
  (session w ["shop"; "main"] ∅).1
    = Return (errorString ("couldn't create proxy client: " +:+ "bad certificate")) ∧
  tunnel_calls (trace (session w ["shop"; "main"] ∅).2) = [EvProxyNew opts] ∧
  statuses (trace (session w ["shop"; "main"] ∅).2) = [] ∧
  fs (session w ["shop"; "main"] ∅).2 = ∅.
Proof.
  intros w opts.
  assert (EvProxyNew opts ∈ trace (session w ["shop"; "main"] ∅).2) as Hin
    by (vm_compute; right; left).
  split; [exact Hin|]. split; [reflexivity|].
  apply (RunE_tunnel_error w ["shop"; "main"] ∅ opts (errorString "bad certificate") Hin).
  reflexivity.
Defined.

(** What the answer of the status call does to the session. *)
Lemma RunE_status w args files :
  wp (RunE w args) (λ r s',
    ∀ o d b, (o, d, b) ∈ statuses (trace s') →
      lookups (trace s') = [(o, d, b)] ∧
      DatabaseBranches_Get w o d b = None ∧
      match DatabaseBranches_GetStatus w o d b with
      | Err err =>
          r = Return
                match ErrCode w err with
                | Some ErrNotFound =>
                    errorString
                      ("branch " +:+ BoldBlue w b +:+ " does not exist in database "
                       +:+ BoldBlue w d +:+ " (organization: " +:+ BoldBlue w o +:+ ")")
                | _ => HandleError w err
                end ∧
          created (trace s') = [] ∧ fs s' = files ∧
          ∃ opts, tunnel_calls (trace s') = [EvProxyNew opts; EvProxyRun]
      | Ok st =>
          ps.User st = "" →
          r = Return (errorString "database branch is not ready yet") ∧
          created (trace s') = [] ∧ fs s' = files ∧
          ∃ opts, tunnel_calls (trace s') = [EvProxyNew opts; EvProxyRun]
      end) (initial files).
Proof.
  unfold RunE. wp_run.
  all: st_rewrite; cases_libs.
  all: intros o d b Hin; tr_simpl_in Hin.
  all: try (apply elem_of_nil in Hin; contradiction).
  all: apply list_elem_of_singleton in Hin; injection Hin as -> -> ->.
  all: split; [reflexivity|]; split; [assumption|].
  all: match goal with
       | H : DatabaseBranches_GetStatus _ _ _ _ = _ |- _ => rewrite H
       end.
  all: try (intros Huser; try contradiction).
  all: try match goal with
           | H : ErrCode _ _ = _ |- _ => rewrite H
           end.
  all: repeat split; try reflexivity; eexists; reflexivity.
Qed.

(** X28: A branch whose status has no user name is not ready: the command
    returns that error and makes no credential file, though the tunnel has
    been started. *)
Theorem RunE_branch_not_ready w args files o d b st :
  EvGetStatus o d b ∈ trace (session w args files).2 →
  DatabaseBranches_GetStatus w o d b = Ok st →
  ps.User st = "" →
  (session w args files).1 = Return (errorString "database branch is not ready yet") ∧
  created (trace (session w args files).2) = [] ∧
  fs (session w args files).2 = files ∧
  ∃ opts, tunnel_calls (trace (session w args files).2) = [EvProxyNew opts; EvProxyRun].
Proof.
  intros Hin Hst Huser.
  assert ((o, d, b) ∈ statuses (trace (session w args files).2)) as Hs.
  { unfold statuses. apply list_elem_of_omap. exists (EvGetStatus o d b). auto. }
  destruct (RunE_status w args files o d b Hs) as (_ & _ & H).
  rewrite Hst in H. exact (H Huser).
Qed.

Lemma RunE_branch_not_ready_witness :
  let w := Scenario.not_ready in
  EvGetStatus "acme" "shop" "main" ∈ trace (session w ["shop"; "main"] ∅).2 ∧
  DatabaseBranches_GetStatus w "acme" "shop" "main"
    = Ok {| ps.User := ""; ps.Password := "" |} ∧
  (session w ["shop"; "main"] ∅).1
    = Return (errorString "database branch is not ready yet") ∧
  created (trace (session w ["shop"; "main"] ∅).2) = [] ∧
  fs (session w ["shop"; "main"] ∅).2 = ∅ ∧
  ∃ opts, tunnel_calls (trace (session w ["shop"; "main"] ∅).2)
          = [EvProxyNew opts; EvProxyRun].
Proof.
  intros w.
  assert (EvGetStatus "acme" "shop" "main" ∈ trace (session w ["shop"; "main"] ∅).2)
    as Hin by (vm_compute; do 3 right; left).
  split; [exact Hin|]. split; [reflexivity|].
  apply (RunE_branch_not_ready w ["shop"; "main"] ∅ "acme" "shop" "main"
           {| ps.User := ""; ps.Password := "" |} Hin); reflexivity.
Defined.

(** X29: When the status call answers not-found (the branch went away after the
    lookup), the command returns an error that names the branch, the
    database and the organization; the tunnel is already started, no
    credential file is made. *)
Theorem RunE_status_not_found w args files o d b err :
  EvGetStatus o d b ∈ trace (session w args files).2 →
  DatabaseBranches_GetStatus w o d b = Err err →
  ErrCode w err = Some ErrNotFound →
  (session w args files).1
    = Return (errorString
        ("branch " +:+ BoldBlue w b +:+ " does not exist in database "
         +:+ BoldBlue w d +:+ " (organization: " +:+ BoldBlue w o +:+ ")")) ∧
  created (trace (session w args files).2) = [] ∧
  fs (session w args files).2 = files ∧
  ∃ opts, tunnel_calls (trace (session w args files).2) = [EvProxyNew opts; EvProxyRun].
Proof.
  intros Hin Hst Hcode.
  assert ((o, d, b) ∈ statuses (trace (session w args files).2)) as Hs.
  { unfold statuses. apply list_elem_of_omap. exists (EvGetStatus o d b). auto. }
  destruct (RunE_status w args files o d b Hs) as (_ & _ & H).
  rewrite Hst, Hcode in H. exact H.
Qed.

Lemma RunE_status_not_found_witness :
  let w := Scenario.status_not_found in
  let err := psError ErrNotFound "Not Found" in
  EvGetStatus "acme" "shop" "main" ∈ trace (session w ["shop"; "main"] ∅).2 ∧
  DatabaseBranches_GetStatus w "acme" "shop" "main" = Err err ∧
  ErrCode w err = Some ErrNotFound ∧
  (session w ["shop"; "main"] ∅).1
    = Return (errorString
        ("branch " +:+ BoldBlue w "main" +:+ " does not exist in database "
         +:+ BoldBlue w "shop" +:+ " (organization: " +:+ BoldBlue w "acme" +:+ ")")) ∧
  created (trace (session w ["shop"; "main"] ∅).2) = [] ∧
  fs (session w ["shop"; "main"] ∅).2 = ∅ ∧
  ∃ opts, tunnel_calls (trace (session w ["shop"; "main"] ∅).2)
          = [EvProxyNew opts; EvProxyRun].
Proof.
  intros w err.
  assert (EvGetStatus "acme" "shop" "main" ∈ trace (session w ["shop"; "main"] ∅).2)
    as Hin by (vm_compute; do 3 right; left).
  split; [exact Hin|]. split; [reflexivity|]. split; [reflexivity|].
  apply (RunE_status_not_found w ["shop"; "main"] ∅ "acme" "shop" "main" err Hin);
    reflexivity.
Defined.

(** X30: The client is started only when the tunnel has reported its bound
    address, and it is told to connect to the host and the port of that
    address. *)
Theorem RunE_client_connects_to_tunnel w args files c :
  c ∈ started (trace (session w args files).2) →
  ∃ addr host port file,
    proxy_LocalAddr w = Ok addr ∧
    net_SplitHostPort w addr = Ok (host, port) ∧
    exec.Args c = [exec.Path c; "--defaults-extra-file=" +:+ file;
                   "-s"; "-t"; "-h"; host; "-P"; port].
Proof.
  intros Hin.
  destruct (RunE_started w args files c Hin)
    as (db & branch & file & addr & host & port & home &
        _ & _ & _ & _ & Haddr & Hsplit & _ & _ & Hc).
  exists addr, host, port, file. repeat split; try assumption.
  rewrite Hc at 1. reflexivity.
Qed.

Lemma RunE_client_connects_to_tunnel_witness :
  let w := Scenario.clean in
  let c := Run_cmd w (session_mysql w "/usr/bin/mysql" "/home/op" "shop" "main")
             (mysqlArgs "/tmp/pscale-123456789" "127.0.0.1" "54321") in
  c ∈ started (trace (session w ["shop"; "main"] ∅).2) ∧
  ∃ addr host port file,
    proxy_LocalAddr w = Ok addr ∧
    net_SplitHostPort w addr = Ok (host, port) ∧
    exec.Args c = [exec.Path c; "--defaults-extra-file=" +:+ file;
                   "-s"; "-t"; "-h"; host; "-P"; port].
Proof.
  intros w c.
  assert (c ∈ started (trace (session w ["shop"; "main"] ∅).2)) as Hin
    by (vm_compute; left).
  split; [exact Hin|].
  apply (RunE_client_connects_to_tunnel w ["shop"; "main"] ∅ c Hin).
Defined.
